(** * Traffic comparator: the comparison report engine

    A shallow embedding of [traffic_comparator/reports.py]: the two report
    classes [BasicCorrectnessReport] and [PerformanceReport], their lazy
    compute-on-first-use state, the summary text and the export to a sink.

    Conventions of the embedding.
    - Python numbers (the ratios of the counts, the latencies) are exact
      rationals [Q]; binary64 rounding is not modelled.
    - Python strings are [string]; a character is one [ascii].
    - A method is a computation in a small state-and-exception monad over the
      object it is called on: an exception leaves the mutations made before
      it in place, as in Python.
    - An attribute that has not been assigned yet is [None]; reading it
      raises [AttributeError].
    - A report borrows the two sequences it is built on: the record fields
      [_response_comparisons] and [_uncompared_requests] stand for the list
      objects the caller passed, and a method that changed those objects
      would show as a change of the fields.
    - What the reports call in libraries is kept apart from them: number
      formatting, [repr] of containers and [difflib] are interfaces
      ([Builtins.Format], [Json.Encoder], [Difflib.Differ]); [json.dumps],
      [str.splitlines], [np.percentile] and [np.average] are given by their
      documented behaviour in [Json] and [Numpy]. *)

From Stdlib Require Import ZArith QArith Qround List String Ascii Bool Arith Lia.
From Stdlib Require Import Permutation Sorted DecimalString OrdersEx RelationClasses Lqa.
Import ListNotations.

Set Warnings "-register-all".

Local Close Scope Q_scope.
Local Open Scope nat_scope.
Local Open Scope list_scope.
Local Open Scope string_scope.

(** ** The Python runtime the reports rely on *)

Module Py.

Inductive exn : Type :=
| ZeroDivisionError
| AttributeError
| IndexError
| ValueError.

Inductive result (A : Type) : Type :=
| Ok (a : A)
| Raise (e : exn).
Arguments Ok {A} a.
Arguments Raise {A} e.

(** A method body: it reads and updates the object [S] and either returns or
    raises. *)
Definition M (S A : Type) : Type := S -> result A * S.

Definition ret {S A} (a : A) : M S A := fun s => (Ok a, s).

Definition bind {S A B} (c : M S A) (k : A -> M S B) : M S B :=
  fun s => match c s with
           | (Ok a, s') => k a s'
           | (Raise e, s') => (Raise e, s')
           end.

Definition raise {S A} (e : exn) : M S A := fun s => (Raise e, s).

(** Sequencing of expressions that touch no object. *)
Definition and_then {A B} (r : result A) (k : A -> result B) : result B :=
  match r with
  | Ok a => k a
  | Raise e => Raise e
  end.

Definition modify {S} (f : S -> S) : M S unit := fun s => (Ok tt, f s).

(** [self.attr] for an attribute that always exists. *)
Definition read {S A} (proj : S -> A) : M S A := fun s => (Ok (proj s), s).

(** [self.attr] for an attribute assigned by [compute]. *)
Definition getattr {S A} (proj : S -> option A) : M S A :=
  fun s => match proj s with
           | Some a => (Ok a, s)
           | None => (Raise AttributeError, s)
           end.

(** Run a computation on one component of a larger state. *)
Definition on_fst {S T A} (c : M S A) : M (S * T) A :=
  fun st => let '(r, s') := c (fst st) in (r, (s', snd st)).

Definition on_snd {S T A} (c : M T A) : M (S * T) A :=
  fun st => let '(r, t') := c (snd st) in (r, (fst st, t')).

(** [for x in xs: body x] *)
Fixpoint for_each {S A} (xs : list A) (body : A -> M S unit) : M S unit :=
  match xs with
  | [] => ret tt
  | x :: xs' => bind (body x) (fun _ => for_each xs' body)
  end.

(** [a / b] on numbers. *)
Definition truediv {S} (a b : Q) : M S Q :=
  if Qeq_bool b 0%Q then raise ZeroDivisionError else ret (a / b)%Q.

(** [sum] of a list of booleans: [True] counts 1 and [False] 0. *)
Definition int_of_bool (b : bool) : nat := if b then 1 else 0.

Definition sum (xs : list nat) : nat := fold_left Nat.add xs 0.

Definition float_of_nat (n : nat) : Q := inject_Z (Z.of_nat n).

(** Text. *)
Definition nl : string := String (ascii_of_nat 10) EmptyString.

Definition str_of_nat (n : nat) : string := NilZero.string_of_uint (Nat.to_uint n).

Definition str_of_int (z : Z) : string := NilZero.string_of_int (Z.to_int z).

(** [c * n] for a one-character string [c]. *)
Fixpoint repeat_char (c : ascii) (n : nat) : string :=
  match n with
  | O => EmptyString
  | S n' => String c (repeat_char c n')
  end.

(** [s[:n]], which is what the format spec [.n] does to a string. *)
Fixpoint truncate (n : nat) (s : string) : string :=
  match n, s with
  | O, _ => EmptyString
  | _, EmptyString => EmptyString
  | S n', String c s' => String c (truncate n' s')
  end.

(** [sep.join(xs)] *)
Fixpoint join (sep : string) (xs : list string) : string :=
  match xs with
  | [] => EmptyString
  | [x] => x
  | x :: xs' => x ++ sep ++ join sep xs'
  end.

End Py.

Declare Scope py_scope.
Delimit Scope py_scope with py.
Notation "x <- c ;; k" := (Py.bind c (fun x => k))
  (at level 61, c at next level, right associativity) : py_scope.
Notation "c ;;; k" := (Py.bind c (fun _ => k))
  (at level 61, right associativity) : py_scope.

(** ** Python values read from JSON

    A response body or header map is whatever the log loader parsed: [None],
    a boolean, a number, a string, a list or a dict.  A dict keeps its items
    in insertion order, so it is an association list. *)

Module Json.

#[local] Unset Elimination Schemes.
Inductive value : Type :=
| JNull
| JBool (b : bool)
| JInt (z : Z)
| JFloat (q : Q)
| JStr (s : string)
| JList (xs : list value)
| JDict (items : list (string * value)).
#[local] Set Elimination Schemes.

(** Induction over a value and, through its lists and dicts, the values
    inside. *)
Fixpoint value_nested_ind (P : value -> Prop)
         (Hnull : P JNull)
         (Hbool : forall b, P (JBool b))
         (Hint : forall z, P (JInt z))
         (Hfloat : forall q, P (JFloat q))
         (Hstr : forall s, P (JStr s))
         (Hlist : forall xs, Forall P xs -> P (JList xs))
         (Hdict : forall items, Forall (fun kv => P (snd kv)) items -> P (JDict items))
         (v : value) {struct v} : P v :=
  match v with
  | JNull => Hnull
  | JBool b => Hbool b
  | JInt z => Hint z
  | JFloat q => Hfloat q
  | JStr s => Hstr s
  | JList xs =>
      Hlist xs
        ((fix all (l : list value) : Forall P l :=
            match l with
            | [] => Forall_nil P
            | x :: l' =>
                Forall_cons x
                  (value_nested_ind P Hnull Hbool Hint Hfloat Hstr Hlist Hdict x)
                  (all l')
            end) xs)
  | JDict items =>
      Hdict items
        ((fix all (l : list (string * value)) : Forall (fun kv => P (snd kv)) l :=
            match l with
            | [] => Forall_nil _
            | kv :: l' =>
                Forall_cons (P := fun kv => P (snd kv)) kv
                  (value_nested_ind P Hnull Hbool Hint Hfloat Hstr Hlist Hdict (snd kv))
                  (all l')
            end) items)
  end.

(** [isinstance(v, str)] *)
Definition is_str (v : value) : bool :=
  match v with JStr _ => true | _ => false end.

(** [v is None] *)
Definition is_none (v : value) : bool :=
  match v with JNull => true | _ => false end.

(** [v == ""] *)
Definition eq_empty_str (v : value) : bool :=
  match v with JStr EmptyString => true | _ => false end.

(** [str(type(v))] *)
Definition type_tag (v : value) : string :=
  match v with
  | JNull => "<class 'NoneType'>"
  | JBool _ => "<class 'bool'>"
  | JInt _ => "<class 'int'>"
  | JFloat _ => "<class 'float'>"
  | JStr _ => "<class 'str'>"
  | JList _ => "<class 'list'>"
  | JDict _ => "<class 'dict'>"
  end.

(** Order on keys: Python compares strings code point by code point. *)
Definition key_ltb (a b : string) : bool :=
  match OrdersEx.String_as_OT.compare a b with
  | Lt => true
  | _ => false
  end.

(** [sorted(items)] for items with pairwise distinct keys: the first
    components decide every comparison. *)
Fixpoint insert_item {A : Type} (kv : string * A) (l : list (string * A))
  : list (string * A) :=
  match l with
  | [] => [kv]
  | kv' :: l' =>
      if key_ltb (fst kv') (fst kv) then kv' :: insert_item kv l'
      else kv :: l
  end.

Definition sorted_items {A : Type} (l : list (string * A)) : list (string * A) :=
  fold_right insert_item [] l.

(** Two neighbours in key order: the second key is not below the first. *)
Definition keys_ascend {A : Type} (a b : string * A) : Prop :=
  key_ltb (fst b) (fst a) = false.

(** [str.splitlines()]: the line boundaries among the first 256 code
    points are LF, VT, FF, CR, CR LF, FS, GS, RS and NEL. *)
Definition is_linebreak (c : ascii) : bool :=
  let n := nat_of_ascii c in
  Nat.eqb n 10 || Nat.eqb n 11 || Nat.eqb n 12 || Nat.eqb n 13
  || Nat.eqb n 28 || Nat.eqb n 29 || Nat.eqb n 30 || Nat.eqb n 133.

Fixpoint splitlines_from (cur : string) (s : string) : list string :=
  match s with
  | EmptyString =>
      match cur with
      | EmptyString => []
      | _ => [cur]
      end
  | String c s' =>
      if is_linebreak c then
        if Nat.eqb (nat_of_ascii c) 13 then
          match s' with
          | String c' s'' =>
              if Nat.eqb (nat_of_ascii c') 10 then cur :: splitlines_from EmptyString s''
              else cur :: splitlines_from EmptyString s'
          | EmptyString => cur :: splitlines_from EmptyString s'
          end
        else cur :: splitlines_from EmptyString s'
      else splitlines_from (cur ++ String c EmptyString) s'
  end.

Definition splitlines (s : string) : list string := splitlines_from EmptyString s.

(** What [json.dumps] and [str] leave to the scalar types. *)
Class Encoder : Type := {
  (** the JSON string literal of a Python string, quotes and escapes included *)
  encode_basestring : string -> string;
  (** [float.__repr__] *)
  float_repr : Q -> string;
  (** [repr] of a list or a dict *)
  container_repr : value -> string
}.

Section Dumps.
Context {enc : Encoder}.

Definition indent_at (level : nat) : string := Py.repeat_char " " (4 * level).

(** Modelled from the spec: [json.dumps(v, sort_keys=True, indent=4)] is the
    standard library's.  The spec has it serialize a structured value as
    indented, key-sorted text; the layout is the library's, at nesting depth
    [level].  The items of a dict are rendered and then put in key order,
    which is the order [sorted(dct.items())] visits them in. *)
Fixpoint dumps_at (level : nat) (v : value) : string :=
  match v with
  | JNull => "null"
  | JBool true => "true"
  | JBool false => "false"
  | JInt z => Py.str_of_int z
  | JFloat q => float_repr q
  | JStr s => encode_basestring s
  | JList [] => "[]"
  | JList xs =>
      let newline_indent := Py.nl ++ indent_at (S level) in
      "[" ++ newline_indent
          ++ Py.join ("," ++ newline_indent) (map (dumps_at (S level)) xs)
          ++ Py.nl ++ indent_at level ++ "]"
  | JDict [] => "{}"
  | JDict items =>
      let newline_indent := Py.nl ++ indent_at (S level) in
      let rendered :=
        map (fun kv => (fst kv, dumps_at (S level) (snd kv))) items in
      "{" ++ newline_indent
          ++ Py.join ("," ++ newline_indent)
               (map (fun kv => encode_basestring (fst kv) ++ ": " ++ snd kv)
                    (sorted_items rendered))
          ++ Py.nl ++ indent_at level ++ "}"
  end.

Definition dumps (v : value) : string := dumps_at 0 v.

(** [str(v)] *)
Definition str (v : value) : string :=
  match v with
  | JNull => "None"
  | JBool true => "True"
  | JBool false => "False"
  | JInt z => Py.str_of_int z
  | JFloat q => float_repr q
  | JStr s => s
  | JList _ | JDict _ => container_repr v
  end.

End Dumps.

(** Two values with the same structure: equal scalars, lists equal item by
    item, dicts with the same keys bound to values of the same structure,
    in any order. *)
Inductive same_structure : value -> value -> Prop :=
| same_null : same_structure JNull JNull
| same_bool b : same_structure (JBool b) (JBool b)
| same_int z : same_structure (JInt z) (JInt z)
| same_float q : same_structure (JFloat q) (JFloat q)
| same_str s : same_structure (JStr s) (JStr s)
| same_list xs ys :
    Forall2 same_structure xs ys ->
    same_structure (JList xs) (JList ys)
| same_dict items1 items1' items2 :
    Permutation items1 items1' ->
    Forall2 (fun kv1 kv2 => fst kv1 = fst kv2 /\ same_structure (snd kv1) (snd kv2))
            items1' items2 ->
    same_structure (JDict items1) (JDict items2).

(** A dict binds a key once, at every depth. *)
Inductive well_formed : value -> Prop :=
| wf_null : well_formed JNull
| wf_bool b : well_formed (JBool b)
| wf_int z : well_formed (JInt z)
| wf_float q : well_formed (JFloat q)
| wf_str s : well_formed (JStr s)
| wf_list xs : Forall well_formed xs -> well_formed (JList xs)
| wf_dict items :
    NoDup (map fst items) ->
    Forall (fun kv => well_formed (snd kv)) items ->
    well_formed (JDict items).

End Json.

(** ** The two NumPy reductions of the performance summary *)

Module Numpy.

(** A NumPy float: a number or NaN. *)
Inductive float64 : Type :=
| Finite (q : Q)
| NaN.

(** What [np.percentile] does with an empty sample depends on the NumPy
    release: older ones return NaN with a warning, newer ones raise
    [IndexError] when they index the empty array. *)
Inductive empty_outcome : Type :=
| EmptyIsNaN
| EmptyRaises.

Class Release : Type := {
  percentile_of_empty : empty_outcome
}.

Fixpoint insert_sample (x : Q) (l : list Q) : list Q :=
  match l with
  | [] => [x]
  | y :: l' => if Qle_bool x y then x :: l else y :: insert_sample x l'
  end.

Definition sort (l : list Q) : list Q := fold_right insert_sample [] l.

Definition total (l : list Q) : Q := fold_left Qplus l 0%Q.

(** [a + (b - a) * t] *)
Definition lerp (a b t : Q) : Q := (a + (b - a) * t)%Q.

Section Reductions.
Context {release : Release}.

(** Modelled from the spec: [np.percentile(a, q)] is NumPy's and not in
    this repository.  The spec makes it the linear-interpolation
    percentile over the sorted sample: with [n] samples the rank of the
    [q]-th percentile is [(n - 1) * q / 100], and the result interpolates
    between the two order statistics around that rank. *)
Definition percentile (a : list Q) (q : Q) : Py.result float64 :=
  if negb (Qle_bool 0 q && Qle_bool q 100) then Py.Raise Py.ValueError
  else
    match a with
    | [] =>
        match percentile_of_empty with
        | EmptyIsNaN => Py.Ok NaN
        | EmptyRaises => Py.Raise Py.IndexError
        end
    | _ =>
        let sorted := sort a in
        let n := List.length a in
        let rank := (inject_Z (Z.of_nat (n - 1)) * (q / 100))%Q in
        let previous := Z.to_nat (Qfloor rank) in
        let next := Nat.min (S previous) (n - 1) in
        let gamma := (rank - inject_Z (Qfloor rank))%Q in
        Py.Ok (Finite (lerp (nth previous sorted 0%Q) (nth next sorted 0%Q) gamma))
    end.

(** Modelled from the spec: [np.average(a)], NumPy's arithmetic mean;
    the mean of no samples is NaN.  The sum is exact here; in binary64 it
    depends on the order of the samples. *)
Definition average (a : list Q) : float64 :=
  match a with
  | [] => NaN
  | _ => Finite (total a / inject_Z (Z.of_nat (List.length a)))%Q
  end.

End Reductions.

End Numpy.

(** ** The records the reports consume *)

Module Data.

(** Modelled from the spec: the response class of [traffic_comparator/data.py],
    which is not among the sources.  The spec gives a response record an
    integer status code, headers, a body that is structured, a raw string or
    absent, and a numeric latency. *)
Record Response : Type := {
  statuscode : Z;
  headers : Json.value;
  body : Json.value;
  latency : Q
}.

(** Modelled from the spec: the class of
    [traffic_comparator/response_comparison.py], which is not among the
    sources.  The spec has it expose the primary response, the shadow
    response and an opaque predicate [is_identical()]; the record carries the
    predicate's answer. *)
Record ResponseComparison : Type := {
  primary_response : Response;
  shadow_response : Response;
  is_identical : bool
}.

End Data.

(** ** Formatting and diffing, as the reports call them *)

Module Builtins.

(** Number formatting of the standard library. *)
Class Format : Type := {
  (** the format spec [.2%] *)
  format_percent : Q -> string;
  (** ['%.1f' % x] for a number [x] *)
  format_1f : Q -> string;
  (** [repr(x)] for a number [x] *)
  repr_number : Q -> string
}.

(** ['%.1f' % x] for a NumPy float. *)
Definition format_float64 {fmt : Format} (x : Numpy.float64) : string :=
  match x with
  | Numpy.Finite q => format_1f q
  | Numpy.NaN => "nan"
  end.

(** A text sink: the strings written to it so far, oldest first. *)
Definition IO : Type := list string.

(** [output_file.write(s)] *)
Definition write (s : string) : Py.M IO unit :=
  Py.modify (fun out => (out ++ [s])%list).

(** An expression that may raise, evaluated inside a method. *)
Definition eval {S A} (r : Py.result A) : Py.M S A := fun s => (r, s).

End Builtins.

Module Difflib.

(** [difflib.Differ().compare(a, b)], collected into a list. *)
Class Differ : Type := {
  compare : list string -> list string -> list string
}.

End Difflib.

(** ** BasicCorrectnessReport *)

Module BasicCorrectnessReport.
Import Data.

Section Report.
Variable RequestResponsePair : Type.
Context {enc : Json.Encoder} {fmt : Builtins.Format} {differ : Difflib.Differ}.

Record t : Type := {
  _response_comparisons : list ResponseComparison;
  _uncompared_requests : list RequestResponsePair;
  _computed : bool;
  _total_comparisons : option nat;
  _number_identical : option nat;
  _statuses_identical : option nat;
  _percent_matching : option Q;
  _percent_statuses_matching : option Q;
  _number_skipped : option nat
}.

Definition __init__ (response_comparisons : list ResponseComparison)
           (uncompared_requests : list RequestResponsePair) : t :=
  {| _response_comparisons := response_comparisons;
     _uncompared_requests := uncompared_requests;
     _computed := false;
     _total_comparisons := None;
     _number_identical := None;
     _statuses_identical := None;
     _percent_matching := None;
     _percent_statuses_matching := None;
     _number_skipped := None |}.

(** Attribute assignments. *)
Definition set_computed (v : bool) (self : t) : t :=
  {| _response_comparisons := _response_comparisons self;
     _uncompared_requests := _uncompared_requests self;
     _computed := v;
     _total_comparisons := _total_comparisons self;
     _number_identical := _number_identical self;
     _statuses_identical := _statuses_identical self;
     _percent_matching := _percent_matching self;
     _percent_statuses_matching := _percent_statuses_matching self;
     _number_skipped := _number_skipped self |}.

Definition set_total_comparisons (v : nat) (self : t) : t :=
  {| _response_comparisons := _response_comparisons self;
     _uncompared_requests := _uncompared_requests self;
     _computed := _computed self;
     _total_comparisons := Some v;
     _number_identical := _number_identical self;
     _statuses_identical := _statuses_identical self;
     _percent_matching := _percent_matching self;
     _percent_statuses_matching := _percent_statuses_matching self;
     _number_skipped := _number_skipped self |}.

Definition set_number_identical (v : nat) (self : t) : t :=
  {| _response_comparisons := _response_comparisons self;
     _uncompared_requests := _uncompared_requests self;
     _computed := _computed self;
     _total_comparisons := _total_comparisons self;
     _number_identical := Some v;
     _statuses_identical := _statuses_identical self;
     _percent_matching := _percent_matching self;
     _percent_statuses_matching := _percent_statuses_matching self;
     _number_skipped := _number_skipped self |}.

Definition set_statuses_identical (v : nat) (self : t) : t :=
  {| _response_comparisons := _response_comparisons self;
     _uncompared_requests := _uncompared_requests self;
     _computed := _computed self;
     _total_comparisons := _total_comparisons self;
     _number_identical := _number_identical self;
     _statuses_identical := Some v;
     _percent_matching := _percent_matching self;
     _percent_statuses_matching := _percent_statuses_matching self;
     _number_skipped := _number_skipped self |}.

Definition set_percent_matching (v : Q) (self : t) : t :=
  {| _response_comparisons := _response_comparisons self;
     _uncompared_requests := _uncompared_requests self;
     _computed := _computed self;
     _total_comparisons := _total_comparisons self;
     _number_identical := _number_identical self;
     _statuses_identical := _statuses_identical self;
     _percent_matching := Some v;
     _percent_statuses_matching := _percent_statuses_matching self;
     _number_skipped := _number_skipped self |}.

Definition set_percent_statuses_matching (v : Q) (self : t) : t :=
  {| _response_comparisons := _response_comparisons self;
     _uncompared_requests := _uncompared_requests self;
     _computed := _computed self;
     _total_comparisons := _total_comparisons self;
     _number_identical := _number_identical self;
     _statuses_identical := _statuses_identical self;
     _percent_matching := _percent_matching self;
     _percent_statuses_matching := Some v;
     _number_skipped := _number_skipped self |}.

Definition set_number_skipped (v : nat) (self : t) : t :=
  {| _response_comparisons := _response_comparisons self;
     _uncompared_requests := _uncompared_requests self;
     _computed := _computed self;
     _total_comparisons := _total_comparisons self;
     _number_identical := _number_identical self;
     _statuses_identical := _statuses_identical self;
     _percent_matching := _percent_matching self;
     _percent_statuses_matching := _percent_statuses_matching self;
     _number_skipped := Some v |}.

(** [comp.primary_response.statuscode == comp.shadow_response.statuscode] *)
Definition statuses_equal (comp : ResponseComparison) : bool :=
  Z.eqb (statuscode (primary_response comp)) (statuscode (shadow_response comp)).

Definition compute : Py.M t unit :=
  (cs <- Py.read _response_comparisons ;;
   Py.modify (set_total_comparisons (List.length cs)) ;;;
   cs <- Py.read _response_comparisons ;;
   Py.modify (set_number_identical
                (Py.sum (map (fun comp => Py.int_of_bool (is_identical comp)) cs))) ;;;
   cs <- Py.read _response_comparisons ;;
   Py.modify (set_statuses_identical
                (Py.sum (map (fun comp => Py.int_of_bool (statuses_equal comp)) cs))) ;;;
   total <- Py.getattr _total_comparisons ;;
   (if negb (Nat.eqb total 0) then
      (number_identical <- Py.getattr _number_identical ;;
       total <- Py.getattr _total_comparisons ;;
       pm <- Py.truediv (1 * Py.float_of_nat number_identical)%Q (Py.float_of_nat total) ;;
       Py.modify (set_percent_matching pm) ;;;
       statuses_identical <- Py.getattr _statuses_identical ;;
       total <- Py.getattr _total_comparisons ;;
       psm <- Py.truediv (1 * Py.float_of_nat statuses_identical)%Q (Py.float_of_nat total) ;;
       Py.modify (set_percent_statuses_matching psm))
    else
      (Py.modify (set_percent_matching 0%Q) ;;;
       Py.modify (set_percent_statuses_matching 0%Q))) ;;;
   us <- Py.read _uncompared_requests ;;
   Py.modify (set_number_skipped (List.length us)) ;;;
   Py.modify (set_computed true))%py.

(** The f-string of [__str__], given the five values it interpolates. *)
Definition summary (total number_identical : nat) (percent_matching
           percent_statuses_matching : Q) (number_skipped : nat) : string :=
  Py.nl
  ++ "    " ++ Py.str_of_nat total ++ " responses were compared." ++ Py.nl
  ++ "    " ++ Py.str_of_nat number_identical
  ++ " were identical, for a match rate of " ++ Builtins.format_percent percent_matching ++ Py.nl
  ++ "    The status codes matched in " ++ Builtins.format_percent percent_statuses_matching
  ++ " of responses." ++ Py.nl
  ++ "    " ++ Py.str_of_nat number_skipped
  ++ " requests from the primary cluster were not matched with a request from the shadow cluster."
  ++ Py.nl
  ++ "    ".

(** [if not self._computed: self.compute()] *)
Definition ensure_computed : Py.M t unit :=
  (computed <- Py.read _computed ;;
   if negb computed then compute else Py.ret tt)%py.

(** The [return] of [__str__]: the f-string over the cached attributes. *)
Definition render : Py.M t string :=
  (total <- Py.getattr _total_comparisons ;;
   number_identical <- Py.getattr _number_identical ;;
   percent_matching <- Py.getattr _percent_matching ;;
   percent_statuses_matching <- Py.getattr _percent_statuses_matching ;;
   number_skipped <- Py.getattr _number_skipped ;;
   Py.ret (summary total number_identical percent_matching
                   percent_statuses_matching number_skipped))%py.

Definition __str__ : Py.M t string :=
  (ensure_computed ;;; render)%py.

(** The test that sends a comparison down the one-line body branch. *)
Definition unstructured (comp : ResponseComparison) : bool :=
  Json.is_str (body (primary_response comp))
  || Json.is_str (body (shadow_response comp))
  || Json.is_none (body (primary_response comp))
  || Json.is_none (body (shadow_response comp)).

(** One side's diff input in the one-line body branch. *)
Definition raw_lines (r : Response) : list string :=
  [ "Status code: " ++ Py.str_of_int (statuscode r);
    "Headers: " ++ Json.str (headers r);
    "Body:" ++ Json.type_tag (body r) ++ " " ++ Py.truncate 80 (Json.str (body r)) ].

(** One side's diff input in the structured branch. *)
Definition json_lines (r : Response) : list string :=
  List.app
    [ "Status code: " ++ Py.str_of_int (statuscode r);
      "Headers: " ++ Json.str (headers r);
      "Body:" ]
    (Json.splitlines (Json.dumps (body r))).

Definition primary_response_lines (comp : ResponseComparison) : list string :=
  if unstructured comp then raw_lines (primary_response comp)
  else json_lines (primary_response comp).

Definition shadow_response_lines (comp : ResponseComparison) : list string :=
  if unstructured comp then raw_lines (shadow_response comp)
  else json_lines (shadow_response comp).

(** The test of the [continue] in the export loop. *)
Definition skipped (comp : ResponseComparison) : bool :=
  is_identical comp
  || Json.eq_empty_str (body (primary_response comp))
  || Json.eq_empty_str (body (shadow_response comp)).

(** The body of the loop of [export], run on the report and the sink. *)
Definition write_diff (comp : ResponseComparison) : Py.M (t * Builtins.IO) unit :=
  if skipped comp then Py.ret tt
  else
    (Py.on_snd (Builtins.write (Py.repeat_char "=" 40)) ;;;
     Py.on_snd (Builtins.write Py.nl) ;;;
     Py.on_snd (Builtins.write
                  (Py.join Py.nl (Difflib.compare (primary_response_lines comp)
                                                  (shadow_response_lines comp)))) ;;;
     Py.on_snd (Builtins.write Py.nl))%py.

(** [export] runs on the report and the sink it is given. *)
Definition export : Py.M (t * Builtins.IO) unit :=
  (Py.on_fst ensure_computed ;;;
   text <- Py.on_fst __str__ ;;
   Py.on_snd (Builtins.write text) ;;;
   Py.on_snd (Builtins.write Py.nl) ;;;
   cs <- Py.on_fst (Py.read _response_comparisons) ;;
   Py.for_each cs write_diff)%py.

(** What one comparison adds to the sink in the loop of [export]. *)
Definition diff_block (comp : ResponseComparison) : list string :=
  if skipped comp then []
  else [ Py.repeat_char "=" 40;
         Py.nl;
         Py.join Py.nl (Difflib.compare (primary_response_lines comp)
                                        (shadow_response_lines comp));
         Py.nl ].

End Report.

Arguments _response_comparisons {RequestResponsePair} _.
Arguments _uncompared_requests {RequestResponsePair} _.
Arguments _computed {RequestResponsePair} _.
Arguments _total_comparisons {RequestResponsePair} _.
Arguments _number_identical {RequestResponsePair} _.
Arguments _statuses_identical {RequestResponsePair} _.
Arguments _percent_matching {RequestResponsePair} _.
Arguments _percent_statuses_matching {RequestResponsePair} _.
Arguments _number_skipped {RequestResponsePair} _.
Arguments __init__ {RequestResponsePair} _ _.
Arguments compute {RequestResponsePair}.
Arguments ensure_computed {RequestResponsePair}.
Arguments render {RequestResponsePair fmt}.
Arguments __str__ {RequestResponsePair fmt}.
Arguments write_diff {RequestResponsePair enc differ}.
Arguments export {RequestResponsePair enc fmt differ}.
Arguments summary {fmt}.

End BasicCorrectnessReport.

(** ** PerformanceReport *)

Module PerformanceReport.
Import Data.

Section Report.
Variable RequestResponsePair : Type.
Context {fmt : Builtins.Format} {release : Numpy.Release}.

Record t : Type := {
  _response_comparisons : list ResponseComparison;
  _uncompared_requests : list RequestResponsePair;
  _computed : bool;
  _primary_latencies : option (list Q);
  _shadow_latencies : option (list Q)
}.

Definition __init__ (response_comparisons : list ResponseComparison)
           (uncompared_requests : list RequestResponsePair) : t :=
  {| _response_comparisons := response_comparisons;
     _uncompared_requests := uncompared_requests;
     _computed := false;
     _primary_latencies := None;
     _shadow_latencies := None |}.

(** Attribute assignments. *)
Definition set_computed (v : bool) (self : t) : t :=
  {| _response_comparisons := _response_comparisons self;
     _uncompared_requests := _uncompared_requests self;
     _computed := v;
     _primary_latencies := _primary_latencies self;
     _shadow_latencies := _shadow_latencies self |}.

Definition set_primary_latencies (v : list Q) (self : t) : t :=
  {| _response_comparisons := _response_comparisons self;
     _uncompared_requests := _uncompared_requests self;
     _computed := _computed self;
     _primary_latencies := Some v;
     _shadow_latencies := _shadow_latencies self |}.

Definition set_shadow_latencies (v : list Q) (self : t) : t :=
  {| _response_comparisons := _response_comparisons self;
     _uncompared_requests := _uncompared_requests self;
     _computed := _computed self;
     _primary_latencies := _primary_latencies self;
     _shadow_latencies := Some v |}.

(** [x > 0] *)
Definition positive (x : Q) : bool := negb (Qle_bool x 0%Q).

(** [self._primary_latencies.append(x)] *)
Definition append_primary (x : Q) : Py.M t unit :=
  (l <- Py.getattr _primary_latencies ;;
   Py.modify (set_primary_latencies (l ++ [x])%list))%py.

(** [self._shadow_latencies.append(x)] *)
Definition append_shadow (x : Q) : Py.M t unit :=
  (l <- Py.getattr _shadow_latencies ;;
   Py.modify (set_shadow_latencies (l ++ [x])%list))%py.

(** The body of the loop of [compute]. *)
Definition record_latencies (resp : ResponseComparison) : Py.M t unit :=
  ((if positive (latency (primary_response resp))
    then append_primary (latency (primary_response resp))
    else Py.ret tt) ;;;
   (if positive (latency (shadow_response resp))
    then append_shadow (latency (shadow_response resp))
    else Py.ret tt))%py.

Definition compute : Py.M t unit :=
  (Py.modify (set_primary_latencies []) ;;;
   Py.modify (set_shadow_latencies []) ;;;
   cs <- Py.read _response_comparisons ;;
   Py.for_each cs record_latencies ;;;
   Py.modify (set_computed true))%py.

(** The four lines of one cluster in the f-string of [__str__]. *)
Definition cluster_stats (p99 p90 p50 avg : string) : string :=
  "    99th percentile = " ++ p99 ++ Py.nl
  ++ "    90th percentile = " ++ p90 ++ Py.nl
  ++ "    50th percentile = " ++ p50 ++ Py.nl
  ++ "    Average Latency = " ++ avg ++ Py.nl.

(** The f-string of [__str__], given the text of its eight fields. *)
Definition summary (p99 p90 p50 pavg s99 s90 s50 savg : string) : string :=
  Py.nl
  ++ "            ==Stats for primary cluster==" ++ Py.nl
  ++ cluster_stats p99 p90 p50 pavg
  ++ "    " ++ Py.nl
  ++ "            ==Stats for shadow cluster==" ++ Py.nl
  ++ cluster_stats s99 s90 s50 savg
  ++ "    ".

(** ['%.1f' % np.percentile(latencies, q)] *)
Definition percentile_text (latencies : t -> option (list Q)) (q : Q)
  : Py.M t string :=
  (l <- Py.getattr latencies ;;
   p <- Builtins.eval (Numpy.percentile l q) ;;
   Py.ret (Builtins.format_float64 p))%py.

(** ['%.1f' % np.average(latencies)] *)
Definition average_text (latencies : t -> option (list Q)) : Py.M t string :=
  (l <- Py.getattr latencies ;;
   Py.ret (Builtins.format_float64 (Numpy.average l)))%py.

(** [if not self._computed: self.compute()] *)
Definition ensure_computed : Py.M t unit :=
  (computed <- Py.read _computed ;;
   if negb computed then compute else Py.ret tt)%py.

(** The [return] of [__str__]: the f-string over the cached latencies. *)
Definition render : Py.M t string :=
  (p99 <- percentile_text _primary_latencies 99 ;;
   p90 <- percentile_text _primary_latencies 90 ;;
   p50 <- percentile_text _primary_latencies 50 ;;
   pavg <- average_text _primary_latencies ;;
   s99 <- percentile_text _shadow_latencies 99 ;;
   s90 <- percentile_text _shadow_latencies 90 ;;
   s50 <- percentile_text _shadow_latencies 50 ;;
   savg <- average_text _shadow_latencies ;;
   Py.ret (summary p99 p90 p50 pavg s99 s90 s50 savg))%py.

Definition __str__ : Py.M t string :=
  (ensure_computed ;;; render)%py.

(** What [render] evaluates to, as a function of the two cached lists:
    the summary, or the first exception a NumPy call raises. *)
Definition summary_of (primary shadow : list Q) : Py.result string :=
  Py.and_then (Numpy.percentile primary 99) (fun p99 =>
  Py.and_then (Numpy.percentile primary 90) (fun p90 =>
  Py.and_then (Numpy.percentile primary 50) (fun p50 =>
  Py.and_then (Numpy.percentile shadow 99) (fun s99 =>
  Py.and_then (Numpy.percentile shadow 90) (fun s90 =>
  Py.and_then (Numpy.percentile shadow 50) (fun s50 =>
  Py.Ok (summary (Builtins.format_float64 p99) (Builtins.format_float64 p90)
                 (Builtins.format_float64 p50)
                 (Builtins.format_float64 (Numpy.average primary))
                 (Builtins.format_float64 s99) (Builtins.format_float64 s90)
                 (Builtins.format_float64 s50)
                 (Builtins.format_float64 (Numpy.average shadow))))))))).

(** [for lat in latencies: output_file.write(repr(lat) + " ")] *)
Definition write_latencies (latencies : list Q) : Py.M Builtins.IO unit :=
  Py.for_each latencies (fun lat => Builtins.write (Builtins.repr_number lat ++ " ")).

Definition export : Py.M (t * Builtins.IO) unit :=
  (Py.on_fst ensure_computed ;;;
   text <- Py.on_fst __str__ ;;
   Py.on_snd (Builtins.write text) ;;;
   Py.on_snd (Builtins.write Py.nl) ;;;
   Py.on_snd (Builtins.write ("All Primary Cluster Latencies: " ++ Py.nl)) ;;;
   primary <- Py.on_fst (Py.getattr _primary_latencies) ;;
   Py.on_snd (write_latencies primary) ;;;
   Py.on_snd (Builtins.write Py.nl) ;;;
   Py.on_snd (Builtins.write ("All Shadow Cluster Latencies: " ++ Py.nl)) ;;;
   shadow <- Py.on_fst (Py.getattr _shadow_latencies) ;;
   Py.on_snd (write_latencies shadow) ;;;
   Py.on_snd (Builtins.write Py.nl))%py.

End Report.

Arguments _response_comparisons {RequestResponsePair} _.
Arguments _uncompared_requests {RequestResponsePair} _.
Arguments _computed {RequestResponsePair} _.
Arguments _primary_latencies {RequestResponsePair} _.
Arguments _shadow_latencies {RequestResponsePair} _.
Arguments __init__ {RequestResponsePair} _ _.
Arguments compute {RequestResponsePair}.
Arguments ensure_computed {RequestResponsePair}.
Arguments render {RequestResponsePair fmt release}.
Arguments __str__ {RequestResponsePair fmt release}.
Arguments export {RequestResponsePair fmt release}.
Arguments summary_of {fmt release}.

End PerformanceReport.

(** ** DataLoader *)

Module DataLoader.

(** What [DataLoader] takes from [traffic_comparator/log_file_loader.py] and
    [traffic_comparator/data.py], which are not among the sources: the enum
    of log file formats, the table of loader classes, the table of
    correlated formats, and the loaders themselves. *)
Class Collaborators : Type := {
  LogFileFormat : Type;
  Path : Type;
  RequestResponseStream : Type;
  (** a log file loader class, and an instance of one *)
  LoaderClass : Type;
  Loader : Type;
  (** an exception raised inside a collaborator *)
  Failure : Type;
  (** [LogFileFormat(value)]: [None] when it raises [ValueError] *)
  format_of_value : string -> option LogFileFormat;
  getLogFileLoader : LogFileFormat -> Failure + LoaderClass;
  (** the dict [IsCorrelatedFormat]: [None] for a key that is not in it *)
  IsCorrelatedFormat : LogFileFormat -> option bool;
  (** [loader_class(log_files)] *)
  instantiate : LoaderClass -> list Path -> Failure + Loader;
  (** [loader.load()] *)
  load : Loader -> Failure + (RequestResponseStream * RequestResponseStream);
  (** [str] of a format and of the list of files, for the debug messages *)
  str_format : LogFileFormat -> string;
  str_files : list Path -> string
}.

Section Loader.
Context {collaborators : Collaborators}.

(** The exceptions that leave the constructor: the two it raises itself and,
    as [Propagated], an exception raised inside a collaborator, which passes
    through as it is, whatever its class.  The second argument of
    [UnknownLogFileFormatException] is the [ValueError] that was caught. *)
Inductive error : Type :=
| UnknownLogFileFormatException (log_file_format : string)
| KeyError (key : LogFileFormat)
| Propagated (failure : Failure).

(** What the constructor does to the outside: the debug messages it logs,
    the loader it instantiates and the loader it asks to load. *)
Inductive event : Type :=
| Debug (message : string)
| Instantiate (loader_class : LoaderClass) (log_files : list Path)
| Load (loader : Loader).

(** A computation that logs events and returns or raises. *)
Definition M (A : Type) : Type := list event -> (error + A) * list event.

Definition ret {A} (a : A) : M A := fun trace => (inr a, trace).

Definition raise {A} (e : error) : M A := fun trace => (inl e, trace).

Definition bind {A B} (c : M A) (k : A -> M B) : M B :=
  fun trace => match c trace with
               | (inr a, trace') => k a trace'
               | (inl e, trace') => (inl e, trace')
               end.

Definition emit (e : event) : M unit := fun trace => (inr tt, (trace ++ [e])%list).

(** The result of a collaborator: its exception propagates. *)
Definition call {A} (r : Failure + A) : M A :=
  match r with
  | inl failure => raise (Propagated failure)
  | inr a => ret a
  end.

Record t : Type := {
  log_file_format : LogFileFormat;
  log_file_loader : LoaderClass;
  _is_correlated : bool;
  log_loader : Loader;
  _primary_log_data : RequestResponseStream;
  _shadow_log_data : RequestResponseStream
}.

(** [DataLoader(log_files, log_file_format)] *)
Definition __init__ (log_files : list Path) (log_file_format_value : string) : M t :=
  match format_of_value log_file_format_value with
  | None => raise (UnknownLogFileFormatException log_file_format_value)
  | Some format =>
      bind (call (getLogFileLoader format)) (fun loader_class =>
      bind (emit (Debug ("Log file loader found for filetype "
                           ++ str_format format ++ "."))) (fun _ =>
      bind (match IsCorrelatedFormat format with
            | Some correlated => ret correlated
            | None => raise (KeyError format)
            end) (fun correlated =>
      bind (emit (Instantiate loader_class log_files)) (fun _ =>
      bind (call (instantiate loader_class log_files)) (fun loader =>
      bind (emit (Debug ("Log file loaders instantiated for files "
                           ++ str_files log_files ++ "."))) (fun _ =>
      bind (emit (Load loader)) (fun _ =>
      bind (call (load loader)) (fun streams =>
      bind (emit (Debug "Shadow and primary log files loaded.")) (fun _ =>
      ret {| log_file_format := format;
             log_file_loader := loader_class;
             _is_correlated := correlated;
             log_loader := loader;
             _primary_log_data := fst streams;
             _shadow_log_data := snd streams |})))))))))
  end.

(** The three properties. *)
Definition is_correlated (self : t) : bool := _is_correlated self.

Definition primary_data_stream (self : t) : RequestResponseStream :=
  _primary_log_data self.

Definition shadow_data_stream (self : t) : RequestResponseStream :=
  _shadow_log_data self.

End Loader.

End DataLoader.

(** ** Callers

    A caller holds a report and a sink and calls the three methods in any
    order; an exception that leaves a method is caught by the caller, who
    keeps the report and the sink as the method left them. *)

Module Driver.

Inductive call : Type :=
| CallCompute
| CallStr
| CallExport.

Section Correctness.
Context {RequestResponsePair : Type}.
Context {enc : Json.Encoder} {fmt : Builtins.Format} {differ : Difflib.Differ}.

Definition correctness_step (st : BasicCorrectnessReport.t RequestResponsePair * Builtins.IO)
           (c : call) : BasicCorrectnessReport.t RequestResponsePair * Builtins.IO :=
  match c with
  | CallCompute => (snd (BasicCorrectnessReport.compute (fst st)), snd st)
  | CallStr => (snd (BasicCorrectnessReport.__str__ (fst st)), snd st)
  | CallExport => snd (BasicCorrectnessReport.export st)
  end.

Definition correctness_run (calls : list call)
           (st : BasicCorrectnessReport.t RequestResponsePair * Builtins.IO) :=
  fold_left correctness_step calls st.

(** The state of a report between calls: once [_computed] is set, the
    cached attributes are the ones [compute] assigns. *)
Definition correctness_settled (self : BasicCorrectnessReport.t RequestResponsePair)
  : Prop :=
  BasicCorrectnessReport._computed self = true ->
  snd (BasicCorrectnessReport.compute self) = self.
End Correctness.

Section Performance.
Context {RequestResponsePair : Type}.
Context {fmt : Builtins.Format} {release : Numpy.Release}.

Definition performance_step (st : PerformanceReport.t RequestResponsePair * Builtins.IO)
           (c : call) : PerformanceReport.t RequestResponsePair * Builtins.IO :=
  match c with
  | CallCompute => (snd (PerformanceReport.compute (fst st)), snd st)
  | CallStr => (snd (PerformanceReport.__str__ (fst st)), snd st)
  | CallExport => snd (PerformanceReport.export st)
  end.

Definition performance_run (calls : list call)
           (st : PerformanceReport.t RequestResponsePair * Builtins.IO) :=
  fold_left performance_step calls st.

Definition performance_settled (self : PerformanceReport.t RequestResponsePair)
  : Prop :=
  PerformanceReport._computed self = true ->
  snd (PerformanceReport.compute self) = self.
End Performance.

End Driver.

(** ** Sample data and stand-ins for the library functions *)

Module Sample.
Import Data.

Definition quote : string := String (ascii_of_nat 34) EmptyString.

(** Enough of the scalar encoders for strings without escapes and for
    numbers with an integer value. *)
#[local] Instance encoder : Json.Encoder := {
  encode_basestring s := quote ++ s ++ quote;
  float_repr q := Py.str_of_int (Qfloor q) ++ ".0";
  container_repr v :=
    match v with
    | Json.JList _ => "[...]"
    | _ => "{...}"
    end
}.

(** Rounding to the nearest integer, ties to the even one. *)
Definition round_half_even (q : Q) : Z :=
  let f := Qfloor q in
  let d := (q - inject_Z f)%Q in
  if Qle_bool d (1 # 2) then
    if Qeq_bool d (1 # 2) then (if Z.even f then f else f + 1)%Z else f
  else (f + 1)%Z.

(** [s.rjust(n, "0")] *)
Definition zero_pad (n : nat) (s : string) : string :=
  Py.repeat_char "0" (n - String.length s) ++ s.

(** Fixed-point text with [digits] decimals, for [digits > 0]. *)
Definition fixed (digits : nat) (q : Q) : string :=
  let scale := (10 ^ Z.of_nat digits)%Z in
  let r := round_half_even (q * inject_Z scale) in
  (if (r <? 0)%Z then "-" else "")
  ++ Py.str_of_int (Z.abs r / scale) ++ "."
  ++ zero_pad digits (Py.str_of_int (Z.abs r mod scale)).

(** Number formats: decimal rounding of the exact value, and [repr] of a
    latency with an integer value. *)
#[local] Instance format : Builtins.Format := {
  format_percent q := fixed 2 (q * 100) ++ "%";
  format_1f q := fixed 1 q;
  repr_number q := Py.str_of_int (Qfloor q)
}.

(** A differ that reports every primary line as removed and every shadow
    line as added. *)
#[local] Instance differ : Difflib.Differ := {
  compare a b := List.app (map (fun l => "- " ++ l) a) (map (fun l => "+ " ++ l) b)
}.

#[local] Instance legacy : Numpy.Release := {
  percentile_of_empty := Numpy.EmptyIsNaN
}.

#[local] Instance current : Numpy.Release := {
  percentile_of_empty := Numpy.EmptyRaises
}.

Definition response (code : Z) (b : Json.value) (lat : Q) : Response :=
  {| statuscode := code; headers := Json.JDict []; body := b; latency := lat |}.

Definition comparison (p s : Response) (same : bool) : ResponseComparison :=
  {| primary_response := p; shadow_response := s; is_identical := same |}.

(** Four comparisons whose primary latencies are 10, -1, 0 and 30. *)
Definition latency_comparisons : list ResponseComparison :=
  [ comparison (response 200 Json.JNull (10 # 1)) (response 200 Json.JNull (12 # 1)) true;
    comparison (response 200 Json.JNull (-1 # 1)) (response 200 Json.JNull (7 # 1)) true;
    comparison (response 200 Json.JNull 0) (response 200 Json.JNull 0) true;
    comparison (response 200 Json.JNull (30 # 1)) (response 200 Json.JNull (-5 # 1)) true ].

(** Five comparisons whose latencies are 10, 20, 30, 40 and 50 on the
    primary side, in another order, and all 5 on the shadow side. *)
Definition percentile_comparisons : list ResponseComparison :=
  map (fun lat => comparison (response 200 Json.JNull lat) (response 200 Json.JNull (5 # 1)) true)
      [30 # 1; 10 # 1; 50 # 1; 20 # 1; 40 # 1]%Q.

(** One comparison whose primary latency was not recorded. *)
Definition unrecorded_primary : list ResponseComparison :=
  [ comparison (response 200 Json.JNull 0) (response 200 Json.JNull (5 # 1)) true ].

(** The same dict written in two key orders. *)
Definition body_ab : Json.value :=
  Json.JDict [("a", Json.JInt 1); ("b", Json.JList [Json.JBool true; Json.JNull])].

Definition body_ba : Json.value :=
  Json.JDict [("b", Json.JList [Json.JBool true; Json.JNull]); ("a", Json.JInt 1)].

(** A string body of 200 characters. *)
Definition long_body : Json.value := Json.JStr (Py.repeat_char "x" 200).

(** A structured primary body against a long string shadow body. *)
Definition truncated_comparison : ResponseComparison :=
  comparison (response 200 body_ab 1) (response 500 long_body 1) false.

(** Two structured bodies that differ. *)
Definition structured_comparison : ResponseComparison :=
  comparison (response 200 body_ab 1) (response 200 (Json.JDict [("a", Json.JInt 2)]) 1) false.

Definition identical_comparison : ResponseComparison :=
  comparison (response 200 body_ab 1) (response 200 body_ba 1) true.

Definition empty_body_comparison : ResponseComparison :=
  comparison (response 200 (Json.JStr "") 1) (response 404 body_ab 1) false.

End Sample.

(** ** A sample of log file loaders *)

Module SampleLoader.

Inductive format : Type :=
| Plain
| Correlated
| Unlisted.

(** Two formats with a loader and an entry in the table of correlated
    formats, and one format, [Unlisted], with a loader and no entry.  A
    loader is the list of files it was given; loading fails on no files. *)
#[local] Instance collaborators : DataLoader.Collaborators := {
  LogFileFormat := format;
  Path := string;
  RequestResponseStream := list string;
  LoaderClass := format;
  Loader := list string;
  Failure := string;
  format_of_value value :=
    if String.eqb value "plain" then Some Plain
    else if String.eqb value "correlated" then Some Correlated
    else if String.eqb value "unlisted" then Some Unlisted
    else None;
  getLogFileLoader f := inr f;
  IsCorrelatedFormat f :=
    match f with
    | Plain => Some false
    | Correlated => Some true
    | Unlisted => None
    end;
  instantiate _ files := inr files;
  load files :=
    match files with
    | [] => inl "no log files"
    | _ => inr (files, files)
    end;
  str_format f :=
    match f with
    | Plain => "plain"
    | Correlated => "correlated"
    | Unlisted => "unlisted"
    end;
  str_files files := String.concat ", " files
}.

End SampleLoader.

(** * Properties *)

(** ** The embedding on sample inputs *)

Section Examples.
Import Data.

Example splitlines_blank_line :
  Json.splitlines ("a" ++ Py.nl ++ Py.nl ++ "b" ++ Py.nl) = ["a"; ""; "b"].
Proof. reflexivity. Qed.

Example splitlines_crlf :
  Json.splitlines ("a" ++ String (ascii_of_nat 13) Py.nl ++ "b") = ["a"; "b"].
Proof. reflexivity. Qed.

Example splitlines_empty : Json.splitlines "" = [].
Proof. reflexivity. Qed.

Example dumps_sorts_keys :
  Json.splitlines (Json.dumps (enc := Sample.encoder) Sample.body_ba)
  = [ "{";
      "    " ++ Sample.quote ++ "a" ++ Sample.quote ++ ": 1,";
      "    " ++ Sample.quote ++ "b" ++ Sample.quote ++ ": [";
      "        true,";
      "        null";
      "    ]";
      "}" ].
Proof. reflexivity. Qed.

Example dumps_empty_containers :
  Json.dumps (enc := Sample.encoder)
             (Json.JDict [("k", Json.JList []); ("j", Json.JDict [])])
  = "{" ++ Py.nl
        ++ "    " ++ Sample.quote ++ "j" ++ Sample.quote ++ ": {}," ++ Py.nl
        ++ "    " ++ Sample.quote ++ "k" ++ Sample.quote ++ ": []" ++ Py.nl
        ++ "}".
Proof. reflexivity. Qed.

Example percentile_99 :
  match Numpy.percentile (release := Sample.current)
                         [10 # 1; 20 # 1; 30 # 1; 40 # 1; 50 # 1]%Q 99 with
  | Py.Ok (Numpy.Finite v) => Qeq_bool v (496 # 10)
  | _ => false
  end = true.
Proof. reflexivity. Qed.

Example fixed_rounds :
  Sample.fixed 1 (4996 # 100) = "50.0" /\ Sample.fixed 2 (1 # 3) = "0.33"
  /\ Sample.fixed 1 (-(25 # 100)) = "-0.2" /\ Sample.fixed 2 (10005 # 1000) = "10.00".
Proof. repeat split. Qed.

Example percentile_out_of_range :
  Numpy.percentile (release := Sample.current) [10 # 1]%Q 101 = Py.Raise Py.ValueError.
Proof. reflexivity. Qed.

Example correctness_summary :
  fst (BasicCorrectnessReport.__str__ (fmt := Sample.format)
         (BasicCorrectnessReport.__init__
            [Sample.truncated_comparison; Sample.identical_comparison] [tt]))
  = Py.Ok (Py.nl
           ++ "    2 responses were compared." ++ Py.nl
           ++ "    1 were identical, for a match rate of 50.00%" ++ Py.nl
           ++ "    The status codes matched in 50.00% of responses." ++ Py.nl
           ++ "    1 requests from the primary cluster were not matched"
           ++ " with a request from the shadow cluster." ++ Py.nl
           ++ "    ").
Proof. reflexivity. Qed.

Example correctness_export_skips :
  snd (snd (BasicCorrectnessReport.export
              (enc := Sample.encoder) (fmt := Sample.format) (differ := Sample.differ)
              (BasicCorrectnessReport.__init__
                 [Sample.identical_comparison; Sample.empty_body_comparison]
                 (@nil unit),
               [])))
  = [ Py.nl
      ++ "    2 responses were compared." ++ Py.nl
      ++ "    1 were identical, for a match rate of 50.00%" ++ Py.nl
      ++ "    The status codes matched in 50.00% of responses." ++ Py.nl
      ++ "    0 requests from the primary cluster were not matched"
      ++ " with a request from the shadow cluster." ++ Py.nl
      ++ "    ";
      Py.nl ].
Proof. reflexivity. Qed.

Example performance_summary :
  fst (PerformanceReport.__str__ (fmt := Sample.format) (release := Sample.current)
         (PerformanceReport.__init__ Sample.percentile_comparisons (@nil unit)))
  = Py.Ok (Py.nl
           ++ "            ==Stats for primary cluster==" ++ Py.nl
           ++ "    99th percentile = 49.6" ++ Py.nl
           ++ "    90th percentile = 46.0" ++ Py.nl
           ++ "    50th percentile = 30.0" ++ Py.nl
           ++ "    Average Latency = 30.0" ++ Py.nl
           ++ "    " ++ Py.nl
           ++ "            ==Stats for shadow cluster==" ++ Py.nl
           ++ "    99th percentile = 5.0" ++ Py.nl
           ++ "    90th percentile = 5.0" ++ Py.nl
           ++ "    50th percentile = 5.0" ++ Py.nl
           ++ "    Average Latency = 5.0" ++ Py.nl
           ++ "    ").
Proof. reflexivity. Qed.

Example performance_summary_no_samples_newer_numpy :
  PerformanceReport.__str__ (fmt := Sample.format) (release := Sample.current)
    (PerformanceReport.__init__ [] (@nil unit))
  = (Py.Raise Py.IndexError,
     snd (PerformanceReport.compute (PerformanceReport.__init__ [] (@nil unit)))).
Proof. reflexivity. Qed.

Example performance_export_no_samples_newer_numpy :
  PerformanceReport.export (fmt := Sample.format) (release := Sample.current)
    (PerformanceReport.__init__ [] (@nil unit), [])
  = (Py.Raise Py.IndexError,
     (snd (PerformanceReport.compute (PerformanceReport.__init__ [] (@nil unit))), [])).
Proof. reflexivity. Qed.

End Examples.

(** ** Counting *)

Lemma sum_from (xs : list nat) (acc : nat) :
  fold_left Nat.add xs acc = acc + fold_left Nat.add xs 0.
Proof.
  revert acc. induction xs as [|x xs IH]; intros acc; simpl.
  - lia.
  - rewrite (IH (acc + x)), (IH x). lia.
Qed.

(** The sum of the truth values of a test is the number of items passing it. *)
Lemma sum_bools_count {A : Type} (f : A -> bool) (xs : list A) :
  Py.sum (map (fun x => Py.int_of_bool (f x)) xs) = List.length (filter f xs).
Proof.
  unfold Py.sum. induction xs as [|x xs IH]; simpl.
  - reflexivity.
  - rewrite sum_from, IH. destruct (f x); simpl; lia.
Qed.

Lemma filter_length_le {A : Type} (f : A -> bool) (xs : list A) :
  List.length (filter f xs) <= List.length xs.
Proof.
  induction xs as [|x xs IH]; simpl; [lia|]. destruct (f x); simpl; lia.
Qed.

Lemma float_of_nat_nonzero (n : nat) :
  n <> 0 -> Qeq_bool (Py.float_of_nat n) 0 = false.
Proof.
  intros Hn. destruct (Qeq_bool (Py.float_of_nat n) 0) eqn:E; [|reflexivity].
  apply Qeq_bool_iff in E. unfold Py.float_of_nat, Qeq in E. simpl in E. lia.
Qed.

(** A count over a count that bounds it is a ratio between 0 and 1. *)
Lemma ratio_bounds (n t : nat) :
  n <= t -> t <> 0 ->
  (0 <= 1 * Py.float_of_nat n / Py.float_of_nat t
   /\ 1 * Py.float_of_nat n / Py.float_of_nat t <= 1)%Q.
Proof.
  intros Hle Ht.
  assert (Hpos : (0 < Py.float_of_nat t)%Q).
  { unfold Py.float_of_nat, Qlt. simpl. lia. }
  split.
  - apply Qle_shift_div_l; [exact Hpos|].
    rewrite Qmult_0_l, Qmult_1_l.
    unfold Py.float_of_nat, Qle. simpl. lia.
  - apply Qle_shift_div_r; [exact Hpos|].
    rewrite !Qmult_1_l.
    unfold Py.float_of_nat, Qle. simpl. lia.
Qed.

(** ** Text *)

Lemma truncate_length (n : nat) (s : string) :
  String.length (Py.truncate n s) = Nat.min n (String.length s).
Proof.
  revert s. induction n as [|n IH]; intros s; simpl.
  - reflexivity.
  - destruct s as [|c s]; simpl; [reflexivity|]. rewrite IH. reflexivity.
Qed.

Lemma truncate_prefix (n : nat) (s : string) :
  exists rest : string, s = Py.truncate n s ++ rest.
Proof.
  revert s. induction n as [|n IH]; intros s; simpl.
  - exists s. reflexivity.
  - destruct s as [|c s]; simpl.
    + exists EmptyString. reflexivity.
    + destruct (IH s) as [rest Hrest]. exists rest. rewrite <- Hrest. reflexivity.
Qed.

Lemma truncate_short (n : nat) (s : string) :
  String.length s <= n -> Py.truncate n s = s.
Proof.
  revert s. induction n as [|n IH]; intros s Hlen; simpl.
  - destruct s; [reflexivity | simpl in Hlen; lia].
  - destruct s as [|c s]; [reflexivity|]. simpl in Hlen. rewrite IH by lia. reflexivity.
Qed.

(** ** JSON values: key order and serialization *)

Section KeyOrder.
Import Json.

Lemma key_ltb_lt (a b : string) : key_ltb a b = true <-> String_as_OT.lt a b.
Proof.
  unfold key_ltb, String_as_OT.lt.
  destruct (String_as_OT.compare a b); split; intros H; congruence.
Qed.

Lemma key_ltb_irrefl (a : string) : key_ltb a a = false.
Proof.
  destruct (key_ltb a a) eqn:E; [|reflexivity].
  apply key_ltb_lt in E. exfalso. exact (StrictOrder_Irreflexive a E).
Qed.

Lemma key_ltb_trans (a b c : string) :
  key_ltb a b = true -> key_ltb b c = true -> key_ltb a c = true.
Proof.
  rewrite !key_ltb_lt. apply StrictOrder_Transitive.
Qed.

Lemma key_ltb_asym (a b : string) : key_ltb a b = true -> key_ltb b a = false.
Proof.
  intros Hab. destruct (key_ltb b a) eqn:Hba; [|reflexivity].
  pose proof (key_ltb_trans _ _ _ Hab Hba) as Haa.
  rewrite key_ltb_irrefl in Haa. discriminate.
Qed.

Lemma key_ltb_total (a b : string) :
  a <> b -> key_ltb a b = true \/ key_ltb b a = true.
Proof.
  intros Hne. rewrite !key_ltb_lt.
  destruct (String_as_OT.compare_spec a b) as [Heq|Hlt|Hgt].
  - contradiction.
  - left. exact Hlt.
  - right. exact Hgt.
Qed.

(** Not below: the other key comes first or is the same key. *)
Lemma key_ltb_false_trans (a b c : string) :
  key_ltb c a = false -> key_ltb c b = true -> a <> b -> key_ltb a b = true.
Proof.
  intros Hca Hcb Hne.
  destruct (key_ltb_total a b Hne) as [H|H]; [exact H|].
  rewrite (key_ltb_trans _ _ _ Hcb H) in Hca. discriminate.
Qed.

Context {A : Type}.
Implicit Types (a b c : string * A) (l : list (string * A)).

Lemma insert_item_comm a b l :
  fst a <> fst b ->
  insert_item a (insert_item b l) = insert_item b (insert_item a l).
Proof.
  intros Hab.
  assert (Hba : fst b <> fst a) by congruence.
  induction l as [|c l IH]; simpl.
  - destruct (key_ltb_total _ _ Hab) as [H|H]; rewrite H, (key_ltb_asym _ _ H);
      reflexivity.
  - destruct (key_ltb (fst c) (fst b)) eqn:Hcb, (key_ltb (fst c) (fst a)) eqn:Hca;
      simpl; rewrite ?Hcb, ?Hca.
    + rewrite IH. reflexivity.
    + rewrite (key_ltb_false_trans _ _ _ Hca Hcb Hab). reflexivity.
    + rewrite (key_ltb_false_trans _ _ _ Hcb Hca Hba). reflexivity.
    + destruct (key_ltb_total _ _ Hab) as [H|H]; rewrite H, (key_ltb_asym _ _ H);
        simpl; rewrite ?Hcb, ?Hca; reflexivity.
Qed.

Lemma insert_item_perm a l : Permutation (insert_item a l) (a :: l).
Proof.
  induction l as [|c l IH]; simpl.
  - apply Permutation_refl.
  - destruct (key_ltb (fst c) (fst a)).
    + apply perm_trans with (c :: a :: l); [apply perm_skip; exact IH | apply perm_swap].
    + apply Permutation_refl.
Qed.

Lemma sorted_items_perm l : Permutation (sorted_items l) l.
Proof.
  induction l as [|a l IH]; simpl.
  - apply perm_nil.
  - apply perm_trans with (a :: sorted_items l);
      [apply insert_item_perm | apply perm_skip; exact IH].
Qed.

(** The order of the items going in does not show in the sorted items. *)
Lemma sorted_items_unique l1 l2 :
  Permutation l1 l2 -> NoDup (map fst l1) -> sorted_items l1 = sorted_items l2.
Proof.
  intros Hperm. induction Hperm as [|a l1 l2 Hperm IH|a b l|l1 l2 l3 H12 IH12 H23 IH23];
    intros Hnd; simpl.
  - reflexivity.
  - simpl in Hnd. inversion Hnd; subst. rewrite IH by assumption. reflexivity.
  - simpl in Hnd. inversion Hnd as [|k ks Hnotin Hnd']; subst.
    apply insert_item_comm. intros Heq. apply Hnotin. left. symmetry. exact Heq.
  - rewrite IH12 by assumption. apply IH23.
    apply (Permutation_NoDup (Permutation_map fst H12) Hnd).
Qed.

Lemma insert_item_sorted a l :
  Sorted keys_ascend l -> Sorted keys_ascend (insert_item a l).
Proof.
  induction l as [|c l IH]; intros Hs; simpl.
  - repeat constructor.
  - inversion Hs as [|c' l' Hl Hhd]; subst.
    destruct (key_ltb (fst c) (fst a)) eqn:Hca.
    + constructor; [apply IH; exact Hl|].
      destruct l as [|d l]; simpl.
      * constructor. unfold keys_ascend. apply key_ltb_asym. exact Hca.
      * destruct (key_ltb (fst d) (fst a)).
        -- constructor. inversion Hhd; assumption.
        -- constructor. unfold keys_ascend. apply key_ltb_asym. exact Hca.
    + constructor; [exact Hs|]. constructor. exact Hca.
Qed.

Lemma sorted_items_sorted l : Sorted keys_ascend (sorted_items l).
Proof.
  induction l as [|a l IH]; simpl; [constructor | apply insert_item_sorted; exact IH].
Qed.

End KeyOrder.

Section DumpsFacts.
Import Json.
Context {enc : Encoder}.

Lemma dumps_at_list (level : nat) (xs : list value) :
  dumps_at level (JList xs)
  = match xs with
    | [] => "[]"
    | _ =>
        "[" ++ (Py.nl ++ indent_at (S level))
            ++ Py.join ("," ++ Py.nl ++ indent_at (S level)) (map (dumps_at (S level)) xs)
            ++ Py.nl ++ indent_at level ++ "]"
    end.
Proof. destruct xs; reflexivity. Qed.

Lemma dumps_at_dict (level : nat) (items : list (string * value)) :
  dumps_at level (JDict items)
  = match items with
    | [] => "{}"
    | _ =>
        "{" ++ (Py.nl ++ indent_at (S level))
            ++ Py.join ("," ++ Py.nl ++ indent_at (S level))
                 (map (fun kv => encode_basestring (fst kv) ++ ": " ++ snd kv)
                      (sorted_items
                         (map (fun kv => (fst kv, dumps_at (S level) (snd kv))) items)))
            ++ Py.nl ++ indent_at level ++ "}"
    end.
Proof. destruct items; reflexivity. Qed.

(** Values of the same structure serialize to the same text, at any depth. *)
Lemma dumps_at_same_structure (v1 : value) :
  forall (v2 : value) (level : nat),
    well_formed v1 -> same_structure v1 v2 ->
    dumps_at level v1 = dumps_at level v2.
Proof.
  induction v1 as [| b | z | q | s | xs IH | items IH] using Json.value_nested_ind;
    intros v2 level Hwf Hsame; inversion Hsame; subst; try reflexivity.
  - (* lists *)
    inversion Hwf as [| | | | | xs' Hwfs |]; subst.
    match goal with H : Forall2 same_structure xs ?ys |- _ => rename H into Hall end.
    assert (Hmap : forall lvl, map (dumps_at lvl) xs = map (dumps_at lvl) ys).
    { intros lvl. clear Hwf Hsame.
      induction Hall as [|x y xs ys Hxy Hall IHall]; [reflexivity|].
      inversion IH; subst. inversion Hwfs; subst. simpl.
      f_equal; [auto | apply IHall; assumption]. }
    rewrite !dumps_at_list, Hmap.
    destruct Hall; reflexivity.
  - (* dicts *)
    inversion Hwf as [| | | | | | items' Hnd Hwfs]; subst.
    match goal with
    | Hp : Permutation items ?items1', Hf : Forall2 _ ?items1' ?items2 |- _ =>
        rename Hp into Hperm; rename Hf into Hall
    end.
    pose proof (Permutation_Forall Hperm IH) as IH'.
    pose proof (Permutation_Forall Hperm Hwfs) as Hwfs'.
    assert (Hmap : forall lvl,
               map (fun kv => (fst kv, dumps_at lvl (snd kv))) items1'
               = map (fun kv => (fst kv, dumps_at lvl (snd kv))) items2).
    { intros lvl. clear Hperm Hwf Hsame IH Hwfs Hnd.
      induction Hall as [|x y xs ys [Hk Hv] Hall IHall]; [reflexivity|].
      inversion IH'; subst. inversion Hwfs'; subst. simpl.
      f_equal; [rewrite Hk; f_equal; auto | apply IHall; assumption]. }
    assert (Hsorted : forall lvl,
               sorted_items (map (fun kv => (fst kv, dumps_at lvl (snd kv))) items)
               = sorted_items (map (fun kv => (fst kv, dumps_at lvl (snd kv))) items2)).
    { intros lvl. rewrite <- Hmap. apply sorted_items_unique.
      - apply Permutation_map. exact Hperm.
      - rewrite map_map. simpl. exact Hnd. }
    rewrite !dumps_at_dict, Hsorted.
    pose proof (Permutation_length Hperm) as Hlen1.
    pose proof (Forall2_length Hall) as Hlen2.
    destruct items, items2; simpl in *; try reflexivity; lia.
Qed.

End DumpsFacts.

(** ** BasicCorrectnessReport: what compute leaves in the object *)

Section CorrectnessFacts.
Import Data BasicCorrectnessReport.
Context {RequestResponsePair : Type}.
Context {enc : Json.Encoder} {fmt : Builtins.Format} {differ : Difflib.Differ}.

Local Abbreviation report := (BasicCorrectnessReport.t RequestResponsePair).

Lemma compute_result (self : report) :
  compute self
  = (Py.Ok tt,
     let cs := _response_comparisons self in
     let total := List.length cs in
     let number_identical := List.length (filter is_identical cs) in
     let statuses_identical := List.length (filter statuses_equal cs) in
     let ratio (n : nat) : Q :=
       if Nat.eqb total 0 then 0%Q
       else (1 * Py.float_of_nat n / Py.float_of_nat total)%Q in
     {| _response_comparisons := cs;
        _uncompared_requests := _uncompared_requests self;
        _computed := true;
        _total_comparisons := Some total;
        _number_identical := Some number_identical;
        _statuses_identical := Some statuses_identical;
        _percent_matching := Some (ratio number_identical);
        _percent_statuses_matching := Some (ratio statuses_identical);
        _number_skipped := Some (List.length (_uncompared_requests self)) |}).
Proof.
  cbv beta iota zeta delta
      [compute Py.bind Py.read Py.modify Py.getattr Py.truediv Py.ret Py.raise
       _response_comparisons _uncompared_requests _computed _total_comparisons
       _number_identical _statuses_identical _percent_matching
       _percent_statuses_matching _number_skipped
       set_computed set_total_comparisons set_number_identical set_statuses_identical
       set_percent_matching set_percent_statuses_matching set_number_skipped negb].
  destruct self as [cs us c f1 f2 f3 f4 f5 f6].
  rewrite !sum_bools_count.
  destruct (Nat.eqb (List.length cs) 0) eqn:E.
  - reflexivity.
  - apply Nat.eqb_neq in E.
    repeat (rewrite (float_of_nat_nonzero _ E); cbv beta iota).
    reflexivity.
Qed.

(** C1: for a non-empty comparison sequence, [compute] returns and leaves
    [_percent_matching] equal to [_number_identical / _total_comparisons],
    a value between 0 and 1, and [_percent_statuses_matching] equal to
    [_statuses_identical / _total_comparisons], where [_number_identical]
    counts the comparisons that are identical and [_statuses_identical]
    counts, whatever [is_identical()] says, those whose two status codes
    are equal. *)
Theorem compute_percentages (self : report) :
  _response_comparisons self <> [] ->
  exists (self' : report) (pm psm : Q),
    compute self = (Py.Ok tt, self')
    /\ _total_comparisons self' = Some (List.length (_response_comparisons self))
    /\ _number_identical self'
       = Some (List.length (filter is_identical (_response_comparisons self)))
    /\ _statuses_identical self'
       = Some (List.length
                 (filter (fun comp => Z.eqb (statuscode (primary_response comp))
                                            (statuscode (shadow_response comp)))
                         (_response_comparisons self)))
    /\ _percent_matching self' = Some pm
    /\ _percent_statuses_matching self' = Some psm
    /\ (pm == inject_Z (Z.of_nat (List.length (filter is_identical (_response_comparisons self))))
             / inject_Z (Z.of_nat (List.length (_response_comparisons self))))%Q
    /\ (0 <= pm)%Q /\ (pm <= 1)%Q
    /\ (psm == inject_Z (Z.of_nat (List.length (filter statuses_equal (_response_comparisons self))))
              / inject_Z (Z.of_nat (List.length (_response_comparisons self))))%Q
    /\ (0 <= psm)%Q /\ (psm <= 1)%Q.
Proof.
  intros Hne.
  assert (Hlen : List.length (_response_comparisons self) <> 0).
  { destruct (_response_comparisons self); [congruence | simpl; lia]. }
  pose proof (ratio_bounds _ _ (filter_length_le is_identical (_response_comparisons self)) Hlen)
    as [Hpm0 Hpm1].
  pose proof (ratio_bounds _ _ (filter_length_le statuses_equal (_response_comparisons self)) Hlen)
    as [Hps0 Hps1].
  rewrite compute_result. cbv zeta.
  apply Nat.eqb_neq in Hlen. rewrite Hlen.
  eexists _, _, _. split; [reflexivity|]. cbn.
  repeat split; try reflexivity; try assumption.
  - unfold Py.float_of_nat. rewrite Qmult_1_l. reflexivity.
  - unfold Py.float_of_nat. rewrite Qmult_1_l. reflexivity.
Qed.

(** C2: for the empty comparison sequence, [compute] returns without
    raising and leaves both percentages 0: the division is not reached. *)
Theorem compute_empty (self : report) :
  _response_comparisons self = [] ->
  exists self' : report,
    compute self = (Py.Ok tt, self')
    /\ _total_comparisons self' = Some 0
    /\ _percent_matching self' = Some 0%Q
    /\ _percent_statuses_matching self' = Some 0%Q.
Proof.
  intros Hnil. rewrite compute_result, Hnil. cbv zeta. cbn.
  eexists. repeat split.
Qed.

(** *** The summary and the export *)

(** The text [__str__] returns for a report over the given sequences. *)
Local Abbreviation text_of self :=
  (let cs := _response_comparisons self in
   let total := List.length cs in
   let number_identical := List.length (filter is_identical cs) in
   let statuses_identical := List.length (filter statuses_equal cs) in
   let ratio (n : nat) : Q :=
     if Nat.eqb total 0 then 0%Q
     else (1 * Py.float_of_nat n / Py.float_of_nat total)%Q in
   summary total number_identical (ratio number_identical) (ratio statuses_identical)
           (List.length (_uncompared_requests self))).

Lemma compute_ok (self : report) :
  compute self = (Py.Ok tt, snd (compute self)).
Proof. rewrite compute_result. reflexivity. Qed.

Lemma compute_twice (self : report) :
  snd (compute (snd (compute self))) = snd (compute self).
Proof. rewrite !compute_result. reflexivity. Qed.

Lemma compute_keeps_inputs (self : report) :
  _response_comparisons (snd (compute self)) = _response_comparisons self
  /\ _uncompared_requests (snd (compute self)) = _uncompared_requests self.
Proof. rewrite compute_result. split; reflexivity. Qed.

Lemma ensure_computed_result (self : report) :
  Driver.correctness_settled self ->
  ensure_computed self = (Py.Ok tt, snd (compute self)).
Proof.
  intros Hs. unfold ensure_computed, Py.bind, Py.read.
  destruct (_computed self) eqn:Hc; cbn [negb].
  - rewrite (Hs Hc). reflexivity.
  - apply compute_ok.
Qed.

Lemma render_after_compute (self : report) :
  render (snd (compute self)) = (Py.Ok (text_of self), snd (compute self)).
Proof. rewrite compute_result. reflexivity. Qed.

Lemma settled_after_compute (self : report) :
  Driver.correctness_settled (snd (compute self)).
Proof. intros _. apply compute_twice. Qed.

Lemma str_result (self : report) :
  Driver.correctness_settled self ->
  __str__ self = (Py.Ok (text_of self), snd (compute self)).
Proof.
  intros Hs. unfold __str__, Py.bind.
  rewrite (ensure_computed_result self Hs). apply render_after_compute.
Qed.

Lemma export_loop (cs : list ResponseComparison) (self : report) (out : Builtins.IO) :
  Py.for_each cs write_diff (self, out)
  = (Py.Ok tt, (self, (out ++ flat_map diff_block cs)%list)).
Proof.
  revert out. induction cs as [|comp cs IH]; intros out; simpl.
  - rewrite app_nil_r. reflexivity.
  - unfold Py.bind at 1. unfold write_diff at 1, diff_block at 1.
    destruct (skipped comp).
    + cbn. apply IH.
    + cbn. rewrite IH. rewrite <- !app_assoc. reflexivity.
Qed.

Lemma export_result (self : report) (out : Builtins.IO) :
  Driver.correctness_settled self ->
  export (self, out)
  = (Py.Ok tt,
     (snd (compute self),
      (out ++ [text_of self; Py.nl]
           ++ flat_map diff_block (_response_comparisons self))%list)).
Proof.
  intros Hs. unfold export.
  unfold Py.bind at 1. unfold Py.on_fst at 1. cbn [fst snd].
  rewrite (ensure_computed_result self Hs).
  unfold Py.bind at 1. unfold Py.on_fst at 1. cbn [fst snd].
  rewrite (str_result _ (settled_after_compute self)).
  rewrite compute_twice.
  destruct (compute_keeps_inputs self) as [Hcs Hus].
  rewrite Hcs, Hus.
  unfold Py.bind, Py.on_snd, Py.on_fst, Py.read, Builtins.write, Py.modify.
  cbn [fst snd]. rewrite Hcs.
  rewrite export_loop. rewrite <- !app_assoc. reflexivity.
Qed.

(** *** Callers *)

Lemma settled_init (cs : list ResponseComparison) (us : list RequestResponsePair) :
  Driver.correctness_settled (__init__ cs us).
Proof. intros Hc. discriminate Hc. Qed.

Lemma correctness_step_invariant (st : report * Builtins.IO) (c : Driver.call) :
  Driver.correctness_settled (fst st) ->
  Driver.correctness_settled (fst (Driver.correctness_step st c))
  /\ _response_comparisons (fst (Driver.correctness_step st c))
     = _response_comparisons (fst st)
  /\ _uncompared_requests (fst (Driver.correctness_step st c))
     = _uncompared_requests (fst st).
Proof.
  intros Hs. destruct st as [self out]. cbn [fst] in Hs.
  destruct (compute_keeps_inputs self) as [Hcs Hus].
  destruct c; unfold Driver.correctness_step; cbn [fst snd].
  - split; [apply settled_after_compute | split; assumption].
  - rewrite (str_result self Hs). cbn [fst snd].
    split; [apply settled_after_compute | split; assumption].
  - rewrite (export_result self out Hs). cbn [fst snd].
    split; [apply settled_after_compute | split; assumption].
Qed.

Lemma correctness_run_invariant (calls : list Driver.call) (st : report * Builtins.IO) :
  Driver.correctness_settled (fst st) ->
  Driver.correctness_settled (fst (Driver.correctness_run calls st))
  /\ _response_comparisons (fst (Driver.correctness_run calls st))
     = _response_comparisons (fst st)
  /\ _uncompared_requests (fst (Driver.correctness_run calls st))
     = _uncompared_requests (fst st).
Proof.
  revert st. induction calls as [|c calls IH]; intros st Hs.
  - repeat split; assumption.
  - unfold Driver.correctness_run. simpl.
    destruct (correctness_step_invariant st c Hs) as (Hs' & Hcs & Hus).
    destruct (IH _ Hs') as (Hs'' & Hcs' & Hus').
    unfold Driver.correctness_run in *.
    split; [exact Hs'' | split; congruence].
Qed.

(** *** The diff section of the export *)

Lemma diff_block_rendered (comp : ResponseComparison) :
  skipped comp = false ->
  diff_block comp
  = [ Py.repeat_char "=" 40; Py.nl;
      Py.join Py.nl (Difflib.compare (primary_response_lines comp)
                                     (shadow_response_lines comp));
      Py.nl ].
Proof. intros H. unfold diff_block. rewrite H. reflexivity. Qed.



Lemma export_fresh (cs1 cs2 : list ResponseComparison) (comp : ResponseComparison)
      (us : list RequestResponsePair) (out : Builtins.IO) :
  skipped comp = false ->
  exists (text : string) (self' : report),
    export (__init__ (cs1 ++ comp :: cs2) us, out)
    = (Py.Ok tt,
       (self',
        (out ++ [text; Py.nl]
             ++ flat_map diff_block cs1
             ++ [ Py.repeat_char "=" 40; Py.nl;
                  Py.join Py.nl (Difflib.compare (primary_response_lines comp)
                                                 (shadow_response_lines comp));
                  Py.nl ]
             ++ flat_map diff_block cs2)%list)).
Proof.
  intros Hsk. eexists _, _.
  rewrite (export_result _ out (settled_init _ us)).
  cbn [__init__ _response_comparisons].
  rewrite flat_map_app. cbn [flat_map]. rewrite (diff_block_rendered comp Hsk).
  reflexivity.
Qed.

(** C7: when a comparison that is rendered has a string or [None] body on
    either side, [export] diffs two three-line inputs, and the third line
    of each side is [Body:], the type tag, a space and the first 80
    characters of the body's string form: the whole string form when it
    has at most 80 characters, and 80 characters of a 200-character one. *)
Theorem export_truncates_raw_bodies
        (cs1 cs2 : list ResponseComparison) (comp : ResponseComparison)
        (us : list RequestResponsePair) (out : Builtins.IO) :
  Json.is_str (body (primary_response comp)) = true
  \/ Json.is_str (body (shadow_response comp)) = true
  \/ body (primary_response comp) = Json.JNull
  \/ body (shadow_response comp) = Json.JNull ->
  skipped comp = false ->
  exists (text : string) (self' : report) (primary_body shadow_body : string),
    export (__init__ (cs1 ++ comp :: cs2) us, out)
    = (Py.Ok tt,
       (self',
        (out ++ [text; Py.nl]
             ++ flat_map diff_block cs1
             ++ [ Py.repeat_char "=" 40; Py.nl;
                  Py.join Py.nl
                    (Difflib.compare
                       [ ("Status code: " ++ Py.str_of_int (statuscode (primary_response comp)))%string;
                         ("Headers: " ++ Json.str (headers (primary_response comp)))%string;
                         ("Body:" ++ Json.type_tag (body (primary_response comp))
                                  ++ " " ++ primary_body)%string ]
                       [ ("Status code: " ++ Py.str_of_int (statuscode (shadow_response comp)))%string;
                         ("Headers: " ++ Json.str (headers (shadow_response comp)))%string;
                         ("Body:" ++ Json.type_tag (body (shadow_response comp))
                                  ++ " " ++ shadow_body)%string ]);
                  Py.nl ]
             ++ flat_map diff_block cs2)%list))
    /\ primary_body = Py.truncate 80 (Json.str (body (primary_response comp)))
    /\ shadow_body = Py.truncate 80 (Json.str (body (shadow_response comp)))
    /\ String.length primary_body
       = Nat.min 80 (String.length (Json.str (body (primary_response comp))))
    /\ String.length shadow_body
       = Nat.min 80 (String.length (Json.str (body (shadow_response comp))))
    /\ (exists rest, Json.str (body (primary_response comp)) = primary_body ++ rest)
    /\ (exists rest, Json.str (body (shadow_response comp)) = shadow_body ++ rest)
    /\ (String.length (Json.str (body (primary_response comp))) <= 80 ->
        primary_body = Json.str (body (primary_response comp)))
    /\ (String.length (Json.str (body (shadow_response comp))) <= 80 ->
        shadow_body = Json.str (body (shadow_response comp)))
    /\ (forall s, String.length s = 200 ->
                  String.length (Py.truncate 80 (Json.str (Json.JStr s))) = 80).
Proof.
  intros Hraw Hsk.
  assert (Hun : unstructured comp = true).
  { unfold unstructured.
    destruct Hraw as [H|[H|[H|H]]]; rewrite H; cbn; rewrite ?orb_true_r; reflexivity. }
  destruct (export_fresh cs1 cs2 comp us out Hsk) as (text & self' & Hexp).
  exists text, self', (Py.truncate 80 (Json.str (body (primary_response comp)))),
    (Py.truncate 80 (Json.str (body (shadow_response comp)))).
  split.
  { rewrite Hexp. unfold primary_response_lines, shadow_response_lines.
    rewrite Hun. reflexivity. }
  repeat split.
  - apply truncate_length.
  - apply truncate_length.
  - apply truncate_prefix.
  - apply truncate_prefix.
  - apply truncate_short.
  - apply truncate_short.
  - intros s Hlen. cbn [Json.str]. rewrite truncate_length, Hlen. reflexivity.
Qed.

(** C8: when both bodies of a comparison that is rendered are structured
    (neither a string nor [None]), each side's diff input is the status
    line, the headers line, the line [Body:] and then the lines of the
    body serialized by [json.dumps] with sorted keys and an indent of 4.
    The serialization of a dict lists its items in key order, so bodies of
    the same structure give the same lines whatever order their keys were
    inserted in. *)
Theorem export_structured_bodies
        (cs1 cs2 : list ResponseComparison) (comp : ResponseComparison)
        (us : list RequestResponsePair) (out : Builtins.IO) :
  Json.is_str (body (primary_response comp)) = false ->
  Json.is_str (body (shadow_response comp)) = false ->
  body (primary_response comp) <> Json.JNull ->
  body (shadow_response comp) <> Json.JNull ->
  is_identical comp = false ->
  (exists (text : string) (self' : report),
    export (__init__ (cs1 ++ comp :: cs2) us, out)
    = (Py.Ok tt,
       (self',
        (out ++ [text; Py.nl]
             ++ flat_map diff_block cs1
             ++ [ Py.repeat_char "=" 40; Py.nl;
                  Py.join Py.nl
                    (Difflib.compare
                       ([ ("Status code: " ++ Py.str_of_int (statuscode (primary_response comp)))%string;
                          ("Headers: " ++ Json.str (headers (primary_response comp)))%string;
                          "Body:" ]
                        ++ Json.splitlines (Json.dumps (body (primary_response comp))))
                       ([ ("Status code: " ++ Py.str_of_int (statuscode (shadow_response comp)))%string;
                          ("Headers: " ++ Json.str (headers (shadow_response comp)))%string;
                          "Body:" ]
                        ++ Json.splitlines (Json.dumps (body (shadow_response comp)))));
                  Py.nl ]
             ++ flat_map diff_block cs2)%list)))
  /\ (forall b1 b2 : Json.value,
         Json.well_formed b1 -> Json.same_structure b1 b2 ->
         Json.splitlines (Json.dumps b1) = Json.splitlines (Json.dumps b2))
  /\ (forall (level : nat) (item : string * Json.value) (items : list (string * Json.value)),
         exists rendered : list (string * string),
           Json.dumps_at level (Json.JDict (item :: items))
           = "{" ++ (Py.nl ++ Json.indent_at (S level))
                 ++ Py.join ("," ++ Py.nl ++ Json.indent_at (S level))
                      (map (fun kv => Json.encode_basestring (fst kv) ++ ": " ++ snd kv)
                           rendered)
                 ++ Py.nl ++ Json.indent_at level ++ "}"
           /\ Sorted Json.keys_ascend rendered
           /\ Permutation rendered
                (map (fun kv => (fst kv, Json.dumps_at (S level) (snd kv)))
                     (item :: items))).
Proof.
  intros Hp Hsh Hpn Hsn Hid.
  assert (Hun : unstructured comp = false).
  { unfold unstructured. rewrite Hp, Hsh. cbn.
    destruct (body (primary_response comp)); try congruence;
      destruct (body (shadow_response comp)); try congruence; reflexivity. }
  assert (Hsk : skipped comp = false).
  { unfold skipped. rewrite Hid. cbn.
    destruct (body (primary_response comp)); try discriminate; try congruence;
      destruct (body (shadow_response comp)); try discriminate; try congruence;
      reflexivity. }
  split; [|split].
  - destruct (export_fresh cs1 cs2 comp us out Hsk) as (text & self' & Hexp).
    exists text, self'. rewrite Hexp.
    unfold primary_response_lines, shadow_response_lines. rewrite Hun. reflexivity.
  - intros b1 b2 Hwf Hsame. unfold Json.dumps.
    rewrite (dumps_at_same_structure b1 b2 0 Hwf Hsame). reflexivity.
  - intros level item items. eexists. split; [|split].
    + rewrite dumps_at_dict. reflexivity.
    + apply sorted_items_sorted.
    + apply sorted_items_perm.
Qed.

End CorrectnessFacts.

(** ** PerformanceReport *)

Section PerformanceFacts.
Import Data PerformanceReport.
Context {RequestResponsePair : Type}.
Context {fmt : Builtins.Format} {release : Numpy.Release}.

Local Abbreviation report := (PerformanceReport.t RequestResponsePair).

Local Abbreviation primary_latency := (fun resp => latency (primary_response resp)).
Local Abbreviation shadow_latency := (fun resp => latency (shadow_response resp)).

Lemma positive_iff (x : Q) : positive x = true <-> (0 < x)%Q.
Proof.
  unfold positive. rewrite negb_true_iff.
  split.
  - intros H. apply Qnot_le_lt. intros Hle. apply Qle_bool_iff in Hle. congruence.
  - intros Hlt. destruct (Qle_bool x 0) eqn:E; [|reflexivity].
    apply Qle_bool_iff in E. exfalso. exact (Qlt_not_le _ _ Hlt E).
Qed.

(** The loop of [compute] extends the two lists it finds in the object. *)
Lemma compute_loop (cs : list ResponseComparison) :
  forall (all : list ResponseComparison) (us : list RequestResponsePair) (c : bool)
         (p s : list Q),
    Py.for_each cs (record_latencies RequestResponsePair)
      {| _response_comparisons := all; _uncompared_requests := us; _computed := c;
         _primary_latencies := Some p; _shadow_latencies := Some s |}
    = (Py.Ok tt,
       {| _response_comparisons := all; _uncompared_requests := us; _computed := c;
          _primary_latencies := Some (p ++ filter positive (map primary_latency cs))%list;
          _shadow_latencies := Some (s ++ filter positive (map shadow_latency cs))%list |}).
Proof.
  induction cs as [|resp cs IH]; intros all us c p s; simpl.
  - rewrite !app_nil_r. reflexivity.
  - unfold Py.bind at 1. unfold record_latencies at 1.
    destruct (positive (latency (primary_response resp)));
      destruct (positive (latency (shadow_response resp)));
      cbv beta iota delta
          [Py.bind append_primary append_shadow Py.getattr Py.modify Py.ret
           set_primary_latencies set_shadow_latencies _response_comparisons
           _uncompared_requests _computed _primary_latencies _shadow_latencies];
      rewrite IH; rewrite <- ?app_assoc; reflexivity.
Qed.

Lemma performance_compute_result (self : report) :
  compute self
  = (Py.Ok tt,
     {| _response_comparisons := _response_comparisons self;
        _uncompared_requests := _uncompared_requests self;
        _computed := true;
        _primary_latencies :=
          Some (filter positive (map primary_latency (_response_comparisons self)));
        _shadow_latencies :=
          Some (filter positive (map shadow_latency (_response_comparisons self))) |}).
Proof.
  destruct self as [cs us c p s].
  cbv beta iota delta
      [compute Py.bind Py.modify Py.read set_primary_latencies set_shadow_latencies
       set_computed _response_comparisons _uncompared_requests _computed
       _primary_latencies _shadow_latencies].
  rewrite compute_loop. reflexivity.
Qed.

(** C4: [compute] returns and leaves in [_primary_latencies] the primary
    latencies that are strictly greater than zero, in input order, and
    nothing for a latency that is zero or negative; likewise for the shadow
    side.  Primary latencies 10, -1, 0, 30 leave [10, 30], whose average is
    20. *)
Theorem compute_filters_latencies (self : report) :
  (exists self' : report,
      compute self = (Py.Ok tt, self')
      /\ _primary_latencies self'
         = Some (filter positive (map primary_latency (_response_comparisons self)))
      /\ _shadow_latencies self'
         = Some (filter positive (map shadow_latency (_response_comparisons self))))
  /\ (forall x : Q, positive x = true <-> (0 < x)%Q)
  /\ (forall x : Q,
         In x (filter positive (map primary_latency (_response_comparisons self)))
         <-> In x (map primary_latency (_response_comparisons self)) /\ (0 < x)%Q)
  /\ (forall x : Q,
         In x (filter positive (map shadow_latency (_response_comparisons self)))
         <-> In x (map shadow_latency (_response_comparisons self)) /\ (0 < x)%Q)
  /\ (forall resp : ResponseComparison,
         (latency (primary_response resp) <= 0)%Q ->
         filter positive (map primary_latency [resp]) = [])
  /\ (forall resp : ResponseComparison,
         (latency (shadow_response resp) <= 0)%Q ->
         filter positive (map shadow_latency [resp]) = [])
  /\ map primary_latency Sample.latency_comparisons = [10 # 1; -1 # 1; 0; 30 # 1]%Q
  /\ _primary_latencies
       (snd (compute (__init__ (RequestResponsePair := RequestResponsePair)
                               Sample.latency_comparisons [])))
     = Some [10 # 1; 30 # 1]%Q
  /\ (exists avg : Q,
         Numpy.average [10 # 1; 30 # 1]%Q = Numpy.Finite avg /\ (avg == 20 # 1)%Q).
Proof.
  assert (Hnonpos : forall x : Q, (x <= 0)%Q -> positive x = false).
  { intros x Hx. unfold positive. apply Qle_bool_iff in Hx. rewrite Hx. reflexivity. }
  assert (Hin : forall (x : Q) (l : list Q),
             In x (filter positive l) <-> In x l /\ (0 < x)%Q).
  { intros x l. rewrite filter_In, positive_iff. reflexivity. }
  split; [|split; [|split; [|split; [|split; [|split; [|split; [|split]]]]]]].
  - eexists. rewrite performance_compute_result. cbn. repeat split.
  - apply positive_iff.
  - intros x. apply Hin.
  - intros x. apply Hin.
  - intros resp Hle. simpl. rewrite (Hnonpos _ Hle). reflexivity.
  - intros resp Hle. simpl. rewrite (Hnonpos _ Hle). reflexivity.
  - reflexivity.
  - rewrite performance_compute_result. reflexivity.
  - eexists. split; [reflexivity|]. reflexivity.
Qed.

(** *** The summary and the export *)

Local Abbreviation primary_of self :=
  (filter positive (map primary_latency (_response_comparisons self))).
Local Abbreviation shadow_of self :=
  (filter positive (map shadow_latency (_response_comparisons self))).

Lemma performance_compute_ok (self : report) :
  compute self = (Py.Ok tt, snd (compute self)).
Proof. rewrite performance_compute_result. reflexivity. Qed.

Lemma performance_compute_twice (self : report) :
  snd (compute (snd (compute self))) = snd (compute self).
Proof. rewrite !performance_compute_result. reflexivity. Qed.

Lemma performance_compute_keeps_inputs (self : report) :
  _response_comparisons (snd (compute self)) = _response_comparisons self
  /\ _uncompared_requests (snd (compute self)) = _uncompared_requests self.
Proof. rewrite performance_compute_result. split; reflexivity. Qed.

Lemma performance_settled_after_compute (self : report) :
  Driver.performance_settled (snd (compute self)).
Proof. intros _. apply performance_compute_twice. Qed.

Lemma performance_ensure_computed_result (self : report) :
  Driver.performance_settled self ->
  ensure_computed self = (Py.Ok tt, snd (compute self)).
Proof.
  intros Hs. unfold ensure_computed, Py.bind, Py.read.
  destruct (_computed self) eqn:Hc; cbn [negb].
  - rewrite (Hs Hc). reflexivity.
  - apply performance_compute_ok.
Qed.

(** [render] reads the two lists and leaves the object alone. *)
Lemma render_result (self : report) (p s : list Q) :
  _primary_latencies self = Some p ->
  _shadow_latencies self = Some s ->
  render self = (summary_of p s, self).
Proof.
  intros Hp Hs. destruct self as [cs us c p' s'].
  cbn [_primary_latencies _shadow_latencies] in Hp, Hs. subst p' s'.
  cbv beta iota delta
      [render summary_of percentile_text average_text Py.bind Py.getattr Py.ret
       Builtins.eval Py.and_then _primary_latencies _shadow_latencies].
  destruct (Numpy.percentile p 99) as [p99|e]; [|reflexivity].
  destruct (Numpy.percentile p 90) as [p90|e]; [|reflexivity].
  destruct (Numpy.percentile p 50) as [p50|e]; [|reflexivity].
  destruct (Numpy.percentile s 99) as [s99|e]; [|reflexivity].
  destruct (Numpy.percentile s 90) as [s90|e]; [|reflexivity].
  destruct (Numpy.percentile s 50) as [s50|e]; reflexivity.
Qed.

Lemma render_after_performance_compute (self : report) :
  render (snd (compute self))
  = (summary_of (primary_of self) (shadow_of self), snd (compute self)).
Proof.
  apply render_result; rewrite performance_compute_result; reflexivity.
Qed.

Lemma performance_str_result (self : report) :
  Driver.performance_settled self ->
  __str__ self
  = (summary_of (primary_of self) (shadow_of self), snd (compute self)).
Proof.
  intros Hs. unfold __str__, Py.bind.
  rewrite (performance_ensure_computed_result self Hs).
  apply render_after_performance_compute.
Qed.

Lemma write_latencies_result (l : list Q) (out : Builtins.IO) :
  write_latencies l out
  = (Py.Ok tt, (out ++ map (fun lat => (Builtins.repr_number lat ++ " ")%string) l)%list).
Proof.
  unfold write_latencies. revert out. induction l as [|x l IH]; intros out; simpl.
  - rewrite app_nil_r. reflexivity.
  - unfold Py.bind, Builtins.write at 1, Py.modify. rewrite IH.
    rewrite <- app_assoc. reflexivity.
Qed.

Lemma performance_export_result (self : report) (out : Builtins.IO) :
  Driver.performance_settled self ->
  export (self, out)
  = match summary_of (primary_of self) (shadow_of self) with
    | Py.Ok text =>
        (Py.Ok tt,
         (snd (compute self),
          (out ++ [text; Py.nl; ("All Primary Cluster Latencies: " ++ Py.nl)%string]
               ++ map (fun lat => (Builtins.repr_number lat ++ " ")%string) (primary_of self)
               ++ [Py.nl; ("All Shadow Cluster Latencies: " ++ Py.nl)%string]
               ++ map (fun lat => (Builtins.repr_number lat ++ " ")%string) (shadow_of self)
               ++ [Py.nl])%list))
    | Py.Raise e => (Py.Raise e, (snd (compute self), out))
    end.
Proof.
  intros Hs. unfold export.
  unfold Py.bind at 1. unfold Py.on_fst at 1. cbn [fst snd].
  rewrite (performance_ensure_computed_result self Hs).
  unfold Py.bind at 1. unfold Py.on_fst at 1. cbn [fst snd].
  rewrite (performance_str_result _ (performance_settled_after_compute self)).
  rewrite performance_compute_twice.
  destruct (performance_compute_keeps_inputs self) as [Hcs Hus].
  rewrite Hcs.
  destruct (summary_of (primary_of self) (shadow_of self)) as [text|e]; [|reflexivity].
  unfold Py.bind, Py.on_snd, Py.on_fst, Py.getattr, Builtins.write, Py.modify.
  cbn [fst snd]. rewrite performance_compute_result.
  repeat (cbn [_primary_latencies _shadow_latencies fst snd];
          rewrite write_latencies_result).
  cbn [_primary_latencies _shadow_latencies fst snd].
  rewrite <- !app_assoc. reflexivity.
Qed.

(** *** Callers *)

Lemma performance_settled_init (cs : list ResponseComparison)
      (us : list RequestResponsePair) :
  Driver.performance_settled (__init__ cs us).
Proof. intros Hc. discriminate Hc. Qed.

Lemma performance_step_invariant (st : report * Builtins.IO) (c : Driver.call) :
  Driver.performance_settled (fst st) ->
  Driver.performance_settled (fst (Driver.performance_step st c))
  /\ _response_comparisons (fst (Driver.performance_step st c))
     = _response_comparisons (fst st)
  /\ _uncompared_requests (fst (Driver.performance_step st c))
     = _uncompared_requests (fst st).
Proof.
  intros Hs. destruct st as [self out]. cbn [fst] in Hs.
  destruct (performance_compute_keeps_inputs self) as [Hcs Hus].
  destruct c; unfold Driver.performance_step; cbn [fst snd].
  - split; [apply performance_settled_after_compute | split; assumption].
  - rewrite (performance_str_result self Hs). cbn [fst snd].
    split; [apply performance_settled_after_compute | split; assumption].
  - rewrite (performance_export_result self out Hs).
    destruct (summary_of (primary_of self) (shadow_of self)); cbn [fst snd];
      (split; [apply performance_settled_after_compute | split; assumption]).
Qed.

Lemma performance_run_invariant (calls : list Driver.call) (st : report * Builtins.IO) :
  Driver.performance_settled (fst st) ->
  Driver.performance_settled (fst (Driver.performance_run calls st))
  /\ _response_comparisons (fst (Driver.performance_run calls st))
     = _response_comparisons (fst st)
  /\ _uncompared_requests (fst (Driver.performance_run calls st))
     = _uncompared_requests (fst st).
Proof.
  revert st. induction calls as [|c calls IH]; intros st Hs.
  - repeat split; assumption.
  - unfold Driver.performance_run. simpl.
    destruct (performance_step_invariant st c Hs) as (Hs' & Hcs & Hus).
    destruct (IH _ Hs') as (Hs'' & Hcs' & Hus').
    unfold Driver.performance_run in *.
    split; [exact Hs'' | split; congruence].
Qed.

(** *** No samples on one side *)

Lemma percentile_of_no_samples (q : Q) :
  Qle_bool 0 q && Qle_bool q 100 = true ->
  Numpy.percentile [] q
  = match Numpy.percentile_of_empty with
    | Numpy.EmptyIsNaN => Py.Ok Numpy.NaN
    | Numpy.EmptyRaises => Py.Raise Py.IndexError
    end.
Proof. intros Hq. unfold Numpy.percentile. rewrite Hq. reflexivity. Qed.

Lemma percentile_of_samples (x : Q) (l : list Q) (q : Q) :
  Qle_bool 0 q && Qle_bool q 100 = true ->
  exists v : Q, Numpy.percentile (x :: l) q = Py.Ok (Numpy.Finite v).
Proof. intros Hq. unfold Numpy.percentile. rewrite Hq. eexists. reflexivity. Qed.

(** With no primary sample the summary is an [IndexError] or four [nan]
    fields, depending on the NumPy release. *)
Lemma summary_of_no_primary_samples (shadow : list Q) :
  match Numpy.percentile_of_empty with
  | Numpy.EmptyIsNaN =>
      exists s99 s90 s50 savg : string,
        summary_of [] shadow = Py.Ok (summary "nan" "nan" "nan" "nan" s99 s90 s50 savg)
  | Numpy.EmptyRaises => summary_of [] shadow = Py.Raise Py.IndexError
  end.
Proof.
  unfold summary_of.
  rewrite !(percentile_of_no_samples) by reflexivity.
  destruct Numpy.percentile_of_empty eqn:E; [|reflexivity].
  cbn [Py.and_then].
  destruct shadow as [|x l].
  - rewrite !(percentile_of_no_samples) by reflexivity. rewrite E.
    cbn [Py.and_then]. eexists _, _, _, _. reflexivity.
  - destruct (percentile_of_samples x l 99 eq_refl) as [v99 H99].
    destruct (percentile_of_samples x l 90 eq_refl) as [v90 H90].
    destruct (percentile_of_samples x l 50 eq_refl) as [v50 H50].
    rewrite H99, H90, H50. cbn [Py.and_then]. eexists _, _, _, _. reflexivity.
Qed.

(** C3: on the empty comparison sequence, and on a sequence whose only
    primary latency is 0, [__str__] hands the empty sample to NumPy: the
    caller gets [IndexError], or a summary whose fields for that side read
    [nan], depending on the NumPy release.  The report has no branch for an
    empty sample. *)
Theorem str_of_empty_sample (us : list RequestResponsePair) :
  fst (__str__ (__init__ [] us))
  = match Numpy.percentile_of_empty with
    | Numpy.EmptyIsNaN =>
        Py.Ok (summary "nan" "nan" "nan" "nan" "nan" "nan" "nan" "nan")
    | Numpy.EmptyRaises => Py.Raise Py.IndexError
    end
  /\ match Numpy.percentile_of_empty with
     | Numpy.EmptyIsNaN =>
         exists s99 s90 s50 savg : string,
           fst (__str__ (__init__ Sample.unrecorded_primary us))
           = Py.Ok (summary "nan" "nan" "nan" "nan" s99 s90 s50 savg)
     | Numpy.EmptyRaises =>
         fst (__str__ (__init__ Sample.unrecorded_primary us)) = Py.Raise Py.IndexError
     end.
Proof.
  split.
  - rewrite (performance_str_result _ (performance_settled_init [] us)).
    cbn [fst __init__ _response_comparisons map filter].
    unfold summary_of. rewrite !(percentile_of_no_samples) by reflexivity.
    destruct Numpy.percentile_of_empty; reflexivity.
  - rewrite (performance_str_result _ (performance_settled_init _ us)).
    cbn [fst]. 
    change (primary_of (__init__ (RequestResponsePair := RequestResponsePair)
                                 Sample.unrecorded_primary us)) with (@nil Q).
    apply summary_of_no_primary_samples.
Qed.

End PerformanceFacts.

(** ** Percentiles *)

Section PercentileFacts.
Import Data PerformanceReport.
Context {RequestResponsePair : Type}.
Context {fmt : Builtins.Format} {release : Numpy.Release}.

Lemma insert_sample_perm (x : Q) (l : list Q) :
  Permutation (Numpy.insert_sample x l) (x :: l).
Proof.
  induction l as [|y l IH]; simpl.
  - apply Permutation_refl.
  - destruct (Qle_bool x y).
    + apply Permutation_refl.
    + apply perm_trans with (y :: x :: l); [apply perm_skip; exact IH | apply perm_swap].
Qed.

Lemma sort_perm (l : list Q) : Permutation (Numpy.sort l) l.
Proof.
  induction l as [|x l IH]; simpl.
  - apply perm_nil.
  - apply perm_trans with (x :: Numpy.sort l);
      [apply insert_sample_perm | apply perm_skip; exact IH].
Qed.

Lemma Qle_bool_false (x y : Q) : Qle_bool x y = false -> (y <= x)%Q.
Proof.
  intros H. apply Qlt_le_weak. apply Qnot_le_lt. intros Hle.
  apply Qle_bool_iff in Hle. congruence.
Qed.

Lemma insert_sample_sorted (x : Q) (l : list Q) :
  Sorted Qle l -> Sorted Qle (Numpy.insert_sample x l).
Proof.
  induction l as [|y l IH]; intros Hs; simpl.
  - repeat constructor.
  - inversion Hs as [|y' l' Hl Hhd]; subst.
    destruct (Qle_bool x y) eqn:Hxy.
    + constructor; [exact Hs|]. constructor. apply Qle_bool_iff. exact Hxy.
    + constructor; [apply IH; exact Hl|].
      destruct l as [|z l]; simpl.
      * constructor. apply Qle_bool_false. exact Hxy.
      * destruct (Qle_bool x z).
        -- constructor. apply Qle_bool_false. exact Hxy.
        -- constructor. inversion Hhd; assumption.
Qed.

Lemma sort_sorted (l : list Q) : Sorted Qle (Numpy.sort l).
Proof.
  induction l as [|x l IH]; simpl; [constructor | apply insert_sample_sorted; exact IH].
Qed.

Lemma in_range (q : Q) :
  (0 <= q)%Q -> (q <= 100)%Q -> Qle_bool 0 q && Qle_bool q 100 = true.
Proof.
  intros H0 H100. apply andb_true_intro. split; apply Qle_bool_iff; assumption.
Qed.

(** The value between the two order statistics of the sorted sample around
    the rank [(n - 1) * q / 100]. *)
Local Abbreviation interpolated l q :=
  (let sorted := Numpy.sort l in
   let n := List.length l in
   let rank := (inject_Z (Z.of_nat (n - 1)) * (q / 100))%Q in
   let k := Z.to_nat (Qfloor rank) in
   let next := Nat.min (S k) (n - 1) in
   (nth k sorted 0 + (nth next sorted 0 - nth k sorted 0)
                     * (rank - inject_Z (Qfloor rank)))%Q).

Lemma percentile_value (x : Q) (l : list Q) (q : Q) :
  Qle_bool 0 q && Qle_bool q 100 = true ->
  Numpy.percentile (x :: l) q = Py.Ok (Numpy.Finite (interpolated (x :: l) q)).
Proof. intros Hq. unfold Numpy.percentile. rewrite Hq. reflexivity. Qed.

(** With a sample on each side, the eight fields of the summary. *)
Lemma summary_of_values (x y : Q) (p s : list Q) :
  summary_of (x :: p) (y :: s)
  = Py.Ok (summary
             (Builtins.format_1f (interpolated (x :: p) 99))
             (Builtins.format_1f (interpolated (x :: p) 90))
             (Builtins.format_1f (interpolated (x :: p) 50))
             (Builtins.format_1f
                (Numpy.total (x :: p) / inject_Z (Z.of_nat (List.length (x :: p)))))
             (Builtins.format_1f (interpolated (y :: s) 99))
             (Builtins.format_1f (interpolated (y :: s) 90))
             (Builtins.format_1f (interpolated (y :: s) 50))
             (Builtins.format_1f
                (Numpy.total (y :: s) / inject_Z (Z.of_nat (List.length (y :: s)))))).
Proof.
  unfold summary_of.
  rewrite !percentile_value by reflexivity.
  reflexivity.
Qed.

(** C9: every percentile field of the summary is the linear interpolation
    between the two order statistics around the rank [(n - 1) * q / 100] of
    the sorted filtered sample, for [q] 99, 90 and 50 on each side: in any
    state a caller can bring the report to, and for every comparison sequence
    with a latency above zero on each side, [__str__] returns the summary
    whose fields are these values (and the means), formatted.  The sorted
    sample is the filtered one in non-decreasing order.  The 50th percentile
    of 10, 20, 30, 40, 50 is 30, in whatever order the samples come; the 50th
    percentile of 10 and 20 is 15, which is neither sample; and the summary
    of a report with these five primary latencies prints that 30 in its
    50th-percentile field. *)
Theorem percentile_interpolates (us : list RequestResponsePair) :
  (exists v : Q,
      Numpy.percentile [10 # 1; 20 # 1; 30 # 1; 40 # 1; 50 # 1]%Q 50 = Py.Ok (Numpy.Finite v)
      /\ (v == 30 # 1)%Q)
  /\ (exists v : Q,
         Numpy.percentile [30 # 1; 10 # 1; 50 # 1; 20 # 1; 40 # 1]%Q 50
         = Py.Ok (Numpy.Finite v)
         /\ (v == 30 # 1)%Q)
  /\ (exists v : Q,
         Numpy.percentile [10 # 1; 20 # 1]%Q 50 = Py.Ok (Numpy.Finite v)
         /\ (v == 15 # 1)%Q)
  /\ (forall (x : Q) (l : list Q) (q : Q),
         (0 <= q)%Q -> (q <= 100)%Q ->
         let sorted := Numpy.sort (x :: l) in
         let rank := (inject_Z (Z.of_nat (List.length l)) * (q / 100))%Q in
         let k := Z.to_nat (Qfloor rank) in
         let gamma := (rank - inject_Z (Qfloor rank))%Q in
         Numpy.percentile (x :: l) q
         = Py.Ok (Numpy.Finite
                    (nth k sorted 0
                     + (nth (Nat.min (S k) (List.length l)) sorted 0 - nth k sorted 0)
                       * gamma)%Q)
         /\ Sorted Qle sorted
         /\ Permutation sorted (x :: l)
         /\ (0 <= gamma)%Q /\ (gamma < 1)%Q)
  /\ (exists (v : Q) (p99 p90 pavg s99 s90 s50 savg : string),
         fst (__str__ (__init__ Sample.percentile_comparisons us))
         = Py.Ok (summary p99 p90 (Builtins.format_1f v) pavg s99 s90 s50 savg)
         /\ (v == 30 # 1)%Q)
  /\ (forall (cs : list ResponseComparison) (calls : list Driver.call)
             (out0 : Builtins.IO) (x y : Q) (p s : list Q),
         filter positive (map (fun resp => latency (primary_response resp)) cs) = x :: p ->
         filter positive (map (fun resp => latency (shadow_response resp)) cs) = y :: s ->
         fst (__str__ (fst (Driver.performance_run calls (__init__ cs us, out0))))
         = Py.Ok (summary
                    (Builtins.format_1f (interpolated (x :: p) 99))
                    (Builtins.format_1f (interpolated (x :: p) 90))
                    (Builtins.format_1f (interpolated (x :: p) 50))
                    (Builtins.format_1f
                       (Numpy.total (x :: p)
                        / inject_Z (Z.of_nat (List.length (x :: p)))))
                    (Builtins.format_1f (interpolated (y :: s) 99))
                    (Builtins.format_1f (interpolated (y :: s) 90))
                    (Builtins.format_1f (interpolated (y :: s) 50))
                    (Builtins.format_1f
                       (Numpy.total (y :: s)
                        / inject_Z (Z.of_nat (List.length (y :: s))))))
         /\ Sorted Qle (Numpy.sort (x :: p))
         /\ Permutation (Numpy.sort (x :: p)) (x :: p)
         /\ Sorted Qle (Numpy.sort (y :: s))
         /\ Permutation (Numpy.sort (y :: s)) (y :: s)).
Proof.
  split; [|split; [|split; [|split; [|split]]]].
  - eexists. split; [vm_compute; reflexivity | vm_compute; reflexivity].
  - eexists. split; [vm_compute; reflexivity | vm_compute; reflexivity].
  - eexists. split; [vm_compute; reflexivity | vm_compute; reflexivity].
  - intros x l q H0 H100. cbv zeta. split; [|split; [|split; [|split]]].
    + unfold Numpy.percentile. rewrite (in_range q H0 H100). cbn [negb].
      cbv zeta.
      replace (List.length (x :: l) - 1) with (List.length l) by (simpl; lia).
      reflexivity.
    + apply sort_sorted.
    + apply sort_perm.
    + apply (Qplus_le_l _ _ (inject_Z (Qfloor (inject_Z (Z.of_nat (List.length l)) * (q / 100))))).
      ring_simplify. apply Qfloor_le.
    + apply (Qplus_lt_l _ _ (inject_Z (Qfloor (inject_Z (Z.of_nat (List.length l)) * (q / 100))))).
      ring_simplify.
      pose proof (Qlt_floor (inject_Z (Z.of_nat (List.length l)) * (q / 100))) as Hlt.
      rewrite inject_Z_plus in Hlt. exact Hlt.
  - rewrite (performance_str_result _ (performance_settled_init _ us)).
    cbn [fst].
    change (filter positive
              (map (fun resp => latency (primary_response resp))
                   (_response_comparisons
                      (__init__ (RequestResponsePair := RequestResponsePair)
                                Sample.percentile_comparisons us))))
      with [30 # 1; 10 # 1; 50 # 1; 20 # 1; 40 # 1]%Q.
    change (filter positive
              (map (fun resp => latency (shadow_response resp))
                   (_response_comparisons
                      (__init__ (RequestResponsePair := RequestResponsePair)
                                Sample.percentile_comparisons us))))
      with [5 # 1; 5 # 1; 5 # 1; 5 # 1; 5 # 1]%Q.
    unfold summary_of.
    destruct (percentile_of_samples (30 # 1) [10 # 1; 50 # 1; 20 # 1; 40 # 1]%Q 99 eq_refl)
      as [v99 H99].
    destruct (percentile_of_samples (30 # 1) [10 # 1; 50 # 1; 20 # 1; 40 # 1]%Q 90 eq_refl)
      as [v90 H90].
    assert (H50 : Numpy.percentile [30 # 1; 10 # 1; 50 # 1; 20 # 1; 40 # 1]%Q 50
                  = Py.Ok (Numpy.Finite (3000 # 100))) by (vm_compute; reflexivity).
    destruct (percentile_of_samples (5 # 1) [5 # 1; 5 # 1; 5 # 1; 5 # 1]%Q 99 eq_refl)
      as [w99 G99].
    destruct (percentile_of_samples (5 # 1) [5 # 1; 5 # 1; 5 # 1; 5 # 1]%Q 90 eq_refl)
      as [w90 G90].
    destruct (percentile_of_samples (5 # 1) [5 # 1; 5 # 1; 5 # 1; 5 # 1]%Q 50 eq_refl)
      as [w50 G50].
    rewrite H99, H90, H50, G99, G90, G50. cbn [Py.and_then Builtins.format_float64].
    eexists _, _, _, _, _, _, _, _. split; [reflexivity | vm_compute; reflexivity].
  - intros cs calls out0 x y p s Hp Hs.
    destruct (performance_run_invariant calls (__init__ cs us, out0)
                (performance_settled_init cs us)) as (Hsettled & Hcs & _).
    cbn [fst __init__ _response_comparisons] in Hcs.
    split; [|split; [|split; [|split]]].
    + rewrite (performance_str_result _ Hsettled). cbn [fst].
      rewrite Hcs, Hp, Hs. apply summary_of_values.
    + apply sort_sorted.
    + apply sort_perm.
    + apply sort_sorted.
    + apply sort_perm.
Qed.

End PercentileFacts.

(** ** Both reports: laziness, idempotence and the borrowed inputs *)

Section ReportFacts.
Import Data.
Context {RequestResponsePair : Type}.
Context {enc : Json.Encoder} {fmt : Builtins.Format} {differ : Difflib.Differ}
        {release : Numpy.Release}.

Lemma correctness_compute_from_inputs
      (self : BasicCorrectnessReport.t RequestResponsePair)
      (cs : list ResponseComparison) (us : list RequestResponsePair) :
  BasicCorrectnessReport._response_comparisons self = cs ->
  BasicCorrectnessReport._uncompared_requests self = us ->
  snd (BasicCorrectnessReport.compute self)
  = snd (BasicCorrectnessReport.compute (BasicCorrectnessReport.__init__ cs us)).
Proof.
  intros Hcs Hus. rewrite !compute_result. cbn [snd]. rewrite Hcs, Hus. reflexivity.
Qed.

Lemma performance_compute_from_inputs
      (self : PerformanceReport.t RequestResponsePair)
      (cs : list ResponseComparison) (us : list RequestResponsePair) :
  PerformanceReport._response_comparisons self = cs ->
  PerformanceReport._uncompared_requests self = us ->
  snd (PerformanceReport.compute self)
  = snd (PerformanceReport.compute (PerformanceReport.__init__ cs us)).
Proof.
  intros Hcs Hus. rewrite !performance_compute_result. cbn [snd].
  rewrite Hcs, Hus. reflexivity.
Qed.

Lemma percentile_never_attribute_error (l : list Q) (q : Q) :
  Numpy.percentile l q <> Py.Raise Py.AttributeError.
Proof.
  unfold Numpy.percentile.
  destruct (negb (Qle_bool 0 q && Qle_bool q 100)); [discriminate|].
  destruct l; [destruct Numpy.percentile_of_empty|]; discriminate.
Qed.

Lemma summary_never_attribute_error (p s : list Q) :
  PerformanceReport.summary_of p s <> Py.Raise Py.AttributeError.
Proof.
  unfold PerformanceReport.summary_of.
  repeat match goal with
         | |- Py.and_then (Numpy.percentile ?l ?q) _ <> _ =>
             let H := fresh "H" in
             pose proof (percentile_never_attribute_error l q) as H;
             destruct (Numpy.percentile l q) as [?|[]];
             cbn [Py.and_then]; try congruence; clear H
         end.
Qed.

(** C6: in any state a caller can bring a report to, [compute] returns and
    leaves the attributes a first [compute] on the fresh report leaves, so a
    second [compute] changes nothing; [__str__] gives the same result with
    or without a [compute] before it, namely the rendering of the computed
    attributes, and never reads an attribute that is not there; [export]
    leaves the report computed and starts with that same summary (or, for
    the performance report, raises what [__str__] raises before it writes
    anything). *)
Theorem compute_once_then_cached
        (cs : list ResponseComparison) (us : list RequestResponsePair)
        (calls : list Driver.call) (out0 : Builtins.IO) :
  (let st := Driver.correctness_run calls (BasicCorrectnessReport.__init__ cs us, out0) in
   let computed :=
     snd (BasicCorrectnessReport.compute (BasicCorrectnessReport.__init__ cs us)) in
   BasicCorrectnessReport.compute (fst st) = (Py.Ok tt, computed)
   /\ BasicCorrectnessReport.compute computed = (Py.Ok tt, computed)
   /\ BasicCorrectnessReport._computed computed = true
   /\ exists text : string,
       BasicCorrectnessReport.__str__ (fst st) = (Py.Ok text, computed)
       /\ BasicCorrectnessReport.__str__ computed = (Py.Ok text, computed)
       /\ BasicCorrectnessReport.render computed = (Py.Ok text, computed)
       /\ exists diffs : list string,
           BasicCorrectnessReport.export st
           = (Py.Ok tt, (computed, (snd st ++ text :: Py.nl :: diffs)%list)))
  /\ (let st := Driver.performance_run calls (PerformanceReport.__init__ cs us, out0) in
      let computed :=
        snd (PerformanceReport.compute (PerformanceReport.__init__ cs us)) in
      PerformanceReport.compute (fst st) = (Py.Ok tt, computed)
      /\ PerformanceReport.compute computed = (Py.Ok tt, computed)
      /\ PerformanceReport._computed computed = true
      /\ exists result : Py.result string,
          PerformanceReport.__str__ (fst st) = (result, computed)
          /\ PerformanceReport.__str__ computed = (result, computed)
          /\ PerformanceReport.render computed = (result, computed)
          /\ result <> Py.Raise Py.AttributeError
          /\ match result with
             | Py.Ok text =>
                 exists latencies : list string,
                   PerformanceReport.export st
                   = (Py.Ok tt, (computed, (snd st ++ text :: Py.nl :: latencies)%list))
             | Py.Raise e =>
                 PerformanceReport.export st = (Py.Raise e, (computed, snd st))
             end).
Proof.
  split.
  - intros st computed.
    destruct (correctness_run_invariant calls
                (BasicCorrectnessReport.__init__ cs us, out0) (settled_init cs us))
      as (Hs & Hcs & Hus).
    fold st in Hs, Hcs, Hus.
    cbn [fst BasicCorrectnessReport.__init__ BasicCorrectnessReport._response_comparisons
         BasicCorrectnessReport._uncompared_requests] in Hcs, Hus.
    pose proof (correctness_compute_from_inputs (fst st) cs us Hcs Hus) as Hfresh.
    fold computed in Hfresh.
    assert (Htwice : snd (BasicCorrectnessReport.compute computed) = computed).
    { apply compute_twice. }
    assert (Hsc : Driver.correctness_settled computed).
    { apply settled_after_compute. }
    split; [rewrite compute_ok, Hfresh; reflexivity|].
    split; [rewrite compute_ok, Htwice; reflexivity|].
    split; [unfold computed; rewrite compute_result; reflexivity|].
    eexists. split; [|split; [|split]].
    + rewrite (str_result _ Hs), Hfresh. reflexivity.
    + rewrite (str_result _ Hsc), Htwice.
      destruct (compute_keeps_inputs (BasicCorrectnessReport.__init__ cs us)) as [H1 H2].
      fold computed in H1, H2. rewrite H1, H2, Hcs, Hus. reflexivity.
    + unfold computed. rewrite render_after_compute.
      cbn [BasicCorrectnessReport.__init__ BasicCorrectnessReport._response_comparisons
           BasicCorrectnessReport._uncompared_requests].
      rewrite Hcs, Hus. reflexivity.
    + exists (flat_map BasicCorrectnessReport.diff_block cs).
      destruct st as [self out] eqn:Est. cbn [fst snd] in *.
      rewrite (export_result self out Hs), Hfresh, Hcs. reflexivity.
  - intros st computed.
    destruct (performance_run_invariant calls
                (PerformanceReport.__init__ cs us, out0) (performance_settled_init cs us))
      as (Hs & Hcs & Hus).
    fold st in Hs, Hcs, Hus.
    cbn [fst PerformanceReport.__init__ PerformanceReport._response_comparisons
         PerformanceReport._uncompared_requests] in Hcs, Hus.
    pose proof (performance_compute_from_inputs (fst st) cs us Hcs Hus) as Hfresh.
    fold computed in Hfresh.
    assert (Htwice : snd (PerformanceReport.compute computed) = computed).
    { apply performance_compute_twice. }
    assert (Hsc : Driver.performance_settled computed).
    { apply performance_settled_after_compute. }
    split; [rewrite performance_compute_ok, Hfresh; reflexivity|].
    split; [rewrite performance_compute_ok, Htwice; reflexivity|].
    split; [unfold computed; rewrite performance_compute_result; reflexivity|].
    eexists. split; [|split; [|split; [|split]]].
    + rewrite (performance_str_result _ Hs), Hfresh. reflexivity.
    + rewrite (performance_str_result _ Hsc), Htwice.
      destruct (performance_compute_keeps_inputs (PerformanceReport.__init__ cs us))
        as [H1 _].
      fold computed in H1. rewrite H1, Hcs. reflexivity.
    + unfold computed. rewrite render_after_performance_compute.
      cbn [PerformanceReport.__init__ PerformanceReport._response_comparisons].
      rewrite Hcs. reflexivity.
    + apply summary_never_attribute_error.
    + destruct st as [self out] eqn:Est. cbn [fst snd] in *.
      rewrite (performance_export_result self out Hs), Hfresh.
      destruct (PerformanceReport.summary_of _ _) as [text|e].
      * eexists. reflexivity.
      * reflexivity.
Qed.

(** C10: whatever calls are made on a report, in any order and number, the
    comparison sequence and the unmatched-request sequence it was built on
    are the ones it still holds: the methods assign the cached attributes
    and the computed flag only. *)
Theorem inputs_are_left_alone
        (cs : list ResponseComparison) (us : list RequestResponsePair)
        (calls : list Driver.call) (out0 : Builtins.IO) :
  (let self := fst (Driver.correctness_run calls
                      (BasicCorrectnessReport.__init__ cs us, out0)) in
   BasicCorrectnessReport._response_comparisons self = cs
   /\ BasicCorrectnessReport._uncompared_requests self = us)
  /\ (let self := fst (Driver.performance_run calls
                         (PerformanceReport.__init__ cs us, out0)) in
      PerformanceReport._response_comparisons self = cs
      /\ PerformanceReport._uncompared_requests self = us).
Proof.
  split; cbv zeta.
  - destruct (correctness_run_invariant calls
                (BasicCorrectnessReport.__init__ cs us, out0) (settled_init cs us))
      as (_ & Hcs & Hus).
    split; assumption.
  - destruct (performance_run_invariant calls
                (PerformanceReport.__init__ cs us, out0) (performance_settled_init cs us))
      as (_ & Hcs & Hus).
    split; assumption.
Qed.

End ReportFacts.

(** ** The theorems at sample inputs *)

Section Witnesses.
Import Data.

#[local] Existing Instance Sample.encoder.
#[local] Existing Instance Sample.format.
#[local] Existing Instance Sample.differ.
#[local] Existing Instance Sample.legacy.

Lemma compute_percentages_witness :
  BasicCorrectnessReport._response_comparisons
    (BasicCorrectnessReport.__init__ (RequestResponsePair := unit)
       [Sample.truncated_comparison; Sample.identical_comparison] [tt]) <> []
  /\ exists (self' : BasicCorrectnessReport.t unit) (pm psm : Q),
      BasicCorrectnessReport.compute
        (BasicCorrectnessReport.__init__
           [Sample.truncated_comparison; Sample.identical_comparison] [tt])
      = (Py.Ok tt, self')
      /\ BasicCorrectnessReport._percent_matching self' = Some pm
      /\ BasicCorrectnessReport._percent_statuses_matching self' = Some psm
      /\ (pm == 1 # 2)%Q /\ (psm == 1 # 2)%Q.
Proof.
  split; [discriminate|].
  destruct (compute_percentages
              (BasicCorrectnessReport.__init__ (RequestResponsePair := unit)
                 [Sample.truncated_comparison; Sample.identical_comparison] [tt]))
    as (self' & pm & psm & Hc & _ & _ & _ & Hpm & Hpsm & Hpmv & _ & _ & Hpsmv & _ & _).
  - discriminate.
  - exists self', pm, psm. repeat split; assumption.
Defined.

Lemma compute_empty_witness :
  BasicCorrectnessReport._response_comparisons
    (BasicCorrectnessReport.__init__ (RequestResponsePair := unit) [] [tt]) = []
  /\ exists self' : BasicCorrectnessReport.t unit,
      BasicCorrectnessReport.compute (BasicCorrectnessReport.__init__ [] [tt])
      = (Py.Ok tt, self')
      /\ BasicCorrectnessReport._total_comparisons self' = Some 0
      /\ BasicCorrectnessReport._percent_matching self' = Some 0%Q
      /\ BasicCorrectnessReport._percent_statuses_matching self' = Some 0%Q.
Proof.
  split; [reflexivity|].
  apply (compute_empty (BasicCorrectnessReport.__init__ (RequestResponsePair := unit) [] [tt])).
  reflexivity.
Defined.

Lemma export_truncates_raw_bodies_witness :
  (Json.is_str (body (primary_response Sample.truncated_comparison)) = true
   \/ Json.is_str (body (shadow_response Sample.truncated_comparison)) = true
   \/ body (primary_response Sample.truncated_comparison) = Json.JNull
   \/ body (shadow_response Sample.truncated_comparison) = Json.JNull)
  /\ BasicCorrectnessReport.skipped Sample.truncated_comparison = false
  /\ exists (text : string) (self' : BasicCorrectnessReport.t unit)
            (primary_body shadow_body : string),
      BasicCorrectnessReport.export
        (BasicCorrectnessReport.__init__ [Sample.truncated_comparison] [], [])
      = (Py.Ok tt,
         (self',
          [ text; Py.nl; "========================================"; Py.nl;
            Py.join Py.nl
              (Difflib.compare
                 [ "Status code: 200"; "Headers: {...}";
                   "Body:<class 'dict'> " ++ primary_body ]
                 [ "Status code: 500"; "Headers: {...}";
                   "Body:<class 'str'> " ++ shadow_body ]);
            Py.nl ]))
      /\ primary_body = "{...}"
      /\ shadow_body = Py.repeat_char "x" 80.
Proof.
  split; [right; left; reflexivity|]. split; [reflexivity|].
  destruct (export_truncates_raw_bodies (RequestResponsePair := unit)
              [] [] Sample.truncated_comparison [] [])
    as (text & self' & pb & sb & Hexp & Hpb & Hsb & _).
  - right; left; reflexivity.
  - reflexivity.
  - exists text, self', pb, sb. split; [exact Hexp|]. split; [exact Hpb | exact Hsb].
Defined.

Lemma sample_body_well_formed : Json.well_formed Sample.body_ab.
Proof.
  apply Json.wf_dict.
  - simpl. repeat constructor; simpl; intuition discriminate.
  - repeat constructor.
Qed.

Lemma sample_bodies_same_structure : Json.same_structure Sample.body_ab Sample.body_ba.
Proof.
  apply Json.same_dict
    with (items1' := [("b", Json.JList [Json.JBool true; Json.JNull]); ("a", Json.JInt 1)]).
  - apply perm_swap.
  - repeat constructor.
Qed.

Lemma export_structured_bodies_witness :
  Json.is_str (body (primary_response Sample.structured_comparison)) = false
  /\ Json.is_str (body (shadow_response Sample.structured_comparison)) = false
  /\ body (primary_response Sample.structured_comparison) <> Json.JNull
  /\ body (shadow_response Sample.structured_comparison) <> Json.JNull
  /\ is_identical Sample.structured_comparison = false
  /\ (exists (text : string) (self' : BasicCorrectnessReport.t unit),
         BasicCorrectnessReport.export
           (BasicCorrectnessReport.__init__ [Sample.structured_comparison] [], [])
         = (Py.Ok tt,
            (self',
             [ text; Py.nl; "========================================"; Py.nl;
               Py.join Py.nl
                 (Difflib.compare
                    [ "Status code: 200"; "Headers: {...}"; "Body:";
                      "{"; "    " ++ Sample.quote ++ "a" ++ Sample.quote ++ ": 1,";
                      "    " ++ Sample.quote ++ "b" ++ Sample.quote ++ ": [";
                      "        true,"; "        null"; "    ]"; "}" ]
                    [ "Status code: 200"; "Headers: {...}"; "Body:";
                      "{"; "    " ++ Sample.quote ++ "a" ++ Sample.quote ++ ": 2"; "}" ]);
               Py.nl ])))
  /\ Json.splitlines (Json.dumps Sample.body_ab)
     = Json.splitlines (Json.dumps Sample.body_ba).
Proof.
  split; [reflexivity|]. split; [reflexivity|].
  split; [discriminate|]. split; [discriminate|]. split; [reflexivity|].
  destruct (export_structured_bodies (RequestResponsePair := unit)
              [] [] Sample.structured_comparison [] [])
    as ((text & self' & Hexp) & Hsame & _);
    try reflexivity; try discriminate.
  split.
  - exists text, self'. exact Hexp.
  - apply Hsame; [apply sample_body_well_formed | apply sample_bodies_same_structure].
Defined.

End Witnesses.

(** * More of the reports *)

(** ** Lists *)

Lemma filter_length_all {A : Type} (f : A -> bool) (l : list A) :
  List.length (filter f l) = List.length l <-> (forall x, In x l -> f x = true).
Proof.
  induction l as [|a l IH]; simpl.
  - split; [intros _ x [] | reflexivity].
  - pose proof (filter_length_le f l) as Hle.
    destruct (f a) eqn:Ha; simpl.
    + split.
      * intros Hlen x [<-|Hin]; [exact Ha | apply IH; [lia | exact Hin]].
      * intros Hall. f_equal. apply IH. intros x Hin. apply Hall. right. exact Hin.
    + split.
      * intros Hlen. lia.
      * intros Hall. specialize (Hall a (or_introl eq_refl)). congruence.
Qed.

Lemma filter_length_none {A : Type} (f : A -> bool) (l : list A) :
  List.length (filter f l) = 0 <-> (forall x, In x l -> f x = false).
Proof.
  induction l as [|a l IH]; simpl.
  - split; [intros _ x [] | reflexivity].
  - destruct (f a) eqn:Ha; simpl.
    + split.
      * discriminate.
      * intros Hall. specialize (Hall a (or_introl eq_refl)). congruence.
    + split.
      * intros Hlen x [<-|Hin]; [exact Ha | apply IH; assumption].
      * intros Hall. apply IH. intros x Hin. apply Hall. right. exact Hin.
Qed.

Lemma filter_permutation {A : Type} (f : A -> bool) (l l' : list A) :
  Permutation l l' -> Permutation (filter f l) (filter f l').
Proof.
  intros H. induction H as [|a l l' H IH|a b l|l1 l2 l3 H12 IH12 H23 IH23]; simpl.
  - apply perm_nil.
  - destruct (f a); [apply perm_skip|]; exact IH.
  - destruct (f a), (f b); try apply Permutation_refl. apply perm_swap.
  - apply perm_trans with (filter f l2); assumption.
Qed.

Lemma string_length_app (a b : string) :
  String.length (a ++ b) = String.length a + String.length b.
Proof. induction a as [|c a IH]; simpl; [reflexivity | rewrite IH; reflexivity]. Qed.

(** A count over a non-zero total is the whole exactly when the ratio is 1
    and nothing exactly when it is 0. *)
Lemma ratio_one (n t : nat) :
  t <> 0 -> ((1 * Py.float_of_nat n / Py.float_of_nat t == 1)%Q <-> n = t).
Proof.
  intros Ht. destruct t as [|t']; [congruence|].
  unfold Py.float_of_nat. rewrite Qmult_1_l.
  unfold Qeq, Qdiv, Qmult, Qinv. simpl. split; intros H; lia.
Qed.

Lemma ratio_zero (n t : nat) :
  t <> 0 -> ((1 * Py.float_of_nat n / Py.float_of_nat t == 0)%Q <-> n = 0).
Proof.
  intros Ht. destruct t as [|t']; [congruence|].
  unfold Py.float_of_nat. rewrite Qmult_1_l.
  unfold Qeq, Qdiv, Qmult, Qinv. simpl. split; intros H; lia.
Qed.

(** ** BasicCorrectnessReport: rates, order and the sink *)

Section CorrectnessExtras.
Import Data BasicCorrectnessReport.
Context {RequestResponsePair : Type}.
Context {enc : Json.Encoder} {fmt : Builtins.Format} {differ : Difflib.Differ}.

Local Abbreviation report := (BasicCorrectnessReport.t RequestResponsePair).

(** The summary of a report over [cs] and [us]. *)
Local Abbreviation summary_text cs us :=
  (let total := List.length cs in
   let number_identical := List.length (filter is_identical cs) in
   let statuses_identical := List.length (filter statuses_equal cs) in
   let ratio (n : nat) : Q :=
     if Nat.eqb total 0 then 0%Q
     else (1 * Py.float_of_nat n / Py.float_of_nat total)%Q in
   summary total number_identical (ratio number_identical) (ratio statuses_identical)
           (List.length us)).

(** What a call adds to the sink. *)
Local Abbreviation written cs us :=
  (fun c : Driver.call =>
     match c with
     | Driver.CallExport =>
         summary_text cs us :: Py.nl :: flat_map diff_block cs
     | _ => []
     end).

Lemma statuses_equal_iff (comp : ResponseComparison) :
  statuses_equal comp = true
  <-> statuscode (primary_response comp) = statuscode (shadow_response comp).
Proof. unfold statuses_equal. apply Z.eqb_eq. Qed.

Lemma statuses_equal_false_iff (comp : ResponseComparison) :
  statuses_equal comp = false
  <-> statuscode (primary_response comp) <> statuscode (shadow_response comp).
Proof. unfold statuses_equal. apply Z.eqb_neq. Qed.

(** X1: The match rate is 1 exactly when every comparison is identical and 0
    exactly when none is; the status rate is 1 exactly when every pair of
    status codes agrees and 0 exactly when none does. *)
Theorem match_rate_extremes (self : report) :
  _response_comparisons self <> [] ->
  exists pm psm : Q,
    _percent_matching (snd (compute self)) = Some pm
    /\ _percent_statuses_matching (snd (compute self)) = Some psm
    /\ ((pm == 1)%Q <->
        forall comp, In comp (_response_comparisons self) -> is_identical comp = true)
    /\ ((pm == 0)%Q <->
        forall comp, In comp (_response_comparisons self) -> is_identical comp = false)
    /\ ((psm == 1)%Q <->
        forall comp, In comp (_response_comparisons self) ->
                     statuscode (primary_response comp) = statuscode (shadow_response comp))
    /\ ((psm == 0)%Q <->
        forall comp, In comp (_response_comparisons self) ->
                     statuscode (primary_response comp) <> statuscode (shadow_response comp)).
Proof.
  intros Hne.
  assert (Hlen : List.length (_response_comparisons self) <> 0).
  { destruct (_response_comparisons self); [congruence | simpl; lia]. }
  rewrite compute_result. cbv zeta.
  rewrite (proj2 (Nat.eqb_neq _ _) Hlen).
  eexists _, _. split; [reflexivity|]. split; [reflexivity|].
  split; [|split; [|split]].
  - rewrite (ratio_one _ _ Hlen). apply filter_length_all.
  - rewrite (ratio_zero _ _ Hlen). apply filter_length_none.
  - rewrite (ratio_one _ _ Hlen), filter_length_all.
    split; intros H comp Hin; apply statuses_equal_iff; apply H; exact Hin.
  - rewrite (ratio_zero _ _ Hlen), filter_length_none.
    split; intros H comp Hin; apply statuses_equal_false_iff; apply H; exact Hin.
Qed.

(** X2: The summary depends on how many comparisons pass each test and on how
    many requests were unmatched, not on their order: reordering the
    comparisons, or replacing the unmatched requests by as many others,
    leaves every cached number and the text of [__str__] as they were. *)
Theorem summary_ignores_order
        (cs cs' : list ResponseComparison) (us us' : list RequestResponsePair) :
  Permutation cs cs' ->
  List.length us = List.length us' ->
  let a := snd (compute (__init__ cs us)) in
  let b := snd (compute (__init__ cs' us')) in
  _total_comparisons a = _total_comparisons b
  /\ _number_identical a = _number_identical b
  /\ _statuses_identical a = _statuses_identical b
  /\ _percent_matching a = _percent_matching b
  /\ _percent_statuses_matching a = _percent_statuses_matching b
  /\ _number_skipped a = _number_skipped b
  /\ fst (__str__ (__init__ cs us)) = fst (__str__ (__init__ cs' us')).
Proof.
  intros Hperm Hus a b. subst a b.
  pose proof (Permutation_length Hperm) as Hlen.
  pose proof (Permutation_length (filter_permutation is_identical _ _ Hperm)) as Hid.
  pose proof (Permutation_length (filter_permutation statuses_equal _ _ Hperm)) as Hst.
  rewrite !(str_result _ (settled_init _ _)).
  rewrite !compute_result.
  cbn [fst snd __init__ _response_comparisons _uncompared_requests _total_comparisons
       _number_identical _statuses_identical _percent_matching
       _percent_statuses_matching _number_skipped].
  cbv zeta. rewrite Hlen, Hid, Hst, Hus. repeat split.
Qed.








End CorrectnessExtras.

(** ** BasicCorrectnessReport: the one-line body *)

Section RawBodyLine.
Import Data BasicCorrectnessReport.
Context {enc : Json.Encoder}.

Lemma type_tag_length (v : Json.value) : String.length (Json.type_tag v) <= 18.
Proof. destruct v; simpl; lia. Qed.

(** X5: In the one-line branch each side's diff input has three entries and the
    body entry is at most 104 characters long, whatever the size of the
    body: 5 for [Body:], at most 18 for the type tag, a space and at most 80
    characters of the body. *)
Theorem raw_body_line_is_short (comp : ResponseComparison) :
  unstructured comp = true ->
  exists p1 p2 p3 s1 s2 s3 : string,
    primary_response_lines comp = [p1; p2; p3]
    /\ shadow_response_lines comp = [s1; s2; s3]
    /\ String.length p3 <= 104
    /\ String.length s3 <= 104.
Proof.
  intros Hun. unfold primary_response_lines, shadow_response_lines. rewrite Hun.
  unfold raw_lines. eexists _, _, _, _, _, _.
  split; [reflexivity|]. split; [reflexivity|].
  split.
  - rewrite !string_length_app, truncate_length.
    change (String.length "Body:") with 5. change (String.length " ") with 1.
    pose proof (type_tag_length (body (primary_response comp))).
    pose proof (Nat.le_min_l 80 (String.length (Json.str (body (primary_response comp))))).
    lia.
  - rewrite !string_length_app, truncate_length.
    change (String.length "Body:") with 5. change (String.length " ") with 1.
    pose proof (type_tag_length (body (shadow_response comp))).
    pose proof (Nat.le_min_l 80 (String.length (Json.str (body (shadow_response comp))))).
    lia.
Qed.

End RawBodyLine.

(** ** PerformanceReport: the export, failures and the samples *)

Section PerformanceExtras.
Import Data PerformanceReport.
Context {RequestResponsePair : Type}.
Context {fmt : Builtins.Format} {release : Numpy.Release}.

Local Abbreviation report := (PerformanceReport.t RequestResponsePair).

Local Abbreviation primary_samples cs :=
  (filter positive (map (fun resp => latency (primary_response resp)) cs)).
Local Abbreviation shadow_samples cs :=
  (filter positive (map (fun resp => latency (shadow_response resp)) cs)).

(** What [export] adds to the sink after a summary [text]. *)
Local Abbreviation latency_dump text cs :=
  ([text; Py.nl; ("All Primary Cluster Latencies: " ++ Py.nl)%string]
   ++ map (fun lat => (Builtins.repr_number lat ++ " ")%string) (primary_samples cs)
   ++ [Py.nl; ("All Shadow Cluster Latencies: " ++ Py.nl)%string]
   ++ map (fun lat => (Builtins.repr_number lat ++ " ")%string) (shadow_samples cs)
   ++ [Py.nl])%list.

(** What a call adds to the sink. *)
Local Abbreviation dumped cs :=
  (fun c : Driver.call =>
     match c with
     | Driver.CallExport =>
         match summary_of (primary_samples cs) (shadow_samples cs) with
         | Py.Ok text => latency_dump text cs
         | Py.Raise _ => []
         end
     | _ => []
     end).

Lemma performance_str_from_inputs (self : report) (cs : list ResponseComparison) :
  Driver.performance_settled self ->
  _response_comparisons self = cs ->
  fst (__str__ self) = summary_of (primary_samples cs) (shadow_samples cs).
Proof.
  intros Hs Hcs. rewrite (performance_str_result self Hs). cbn [fst].
  rewrite Hcs. reflexivity.
Qed.

(** X6: In any state a caller can bring the report to, [export] writes, after
    what the sink holds: the summary, a newline, the primary heading, one
    [repr(lat) + " "] for each primary latency above zero in input order, a
    newline, the shadow heading, the same for the shadow side and a newline.
    When the summary raises, [export] raises the same exception, has written
    nothing, and leaves the report computed. *)
Theorem performance_export_layout
        (cs : list ResponseComparison) (us : list RequestResponsePair)
        (calls : list Driver.call) (out0 : Builtins.IO) :
  let st := Driver.performance_run calls (__init__ cs us, out0) in
  let computed := snd (compute (__init__ cs us)) in
  match fst (__str__ (fst st)) with
  | Py.Ok text =>
      export st = (Py.Ok tt, (computed, (snd st ++ latency_dump text cs)%list))
  | Py.Raise e => export st = (Py.Raise e, (computed, snd st))
  end.
Proof.
  intros st computed.
  destruct (performance_run_invariant calls (__init__ cs us, out0)
              (performance_settled_init cs us)) as (Hs & Hcs & Hus).
  fold st in Hs, Hcs, Hus.
  cbn [fst __init__ _response_comparisons _uncompared_requests] in Hcs, Hus.
  rewrite (performance_str_from_inputs _ cs Hs Hcs).
  destruct st as [self out] eqn:Est. cbn [fst snd] in *.
  rewrite (performance_export_result self out Hs).
  rewrite (performance_compute_from_inputs self cs us Hcs Hus). fold computed.
  rewrite Hcs.
  destruct (summary_of (primary_samples cs) (shadow_samples cs)); reflexivity.
Qed.

Lemma summary_of_samples (x y : Q) (p s : list Q) :
  exists v99 v90 v50 vavg w99 w90 w50 wavg : Q,
    summary_of (x :: p) (y :: s)
    = Py.Ok (summary (Builtins.format_1f v99) (Builtins.format_1f v90)
                     (Builtins.format_1f v50) (Builtins.format_1f vavg)
                     (Builtins.format_1f w99) (Builtins.format_1f w90)
                     (Builtins.format_1f w50) (Builtins.format_1f wavg)).
Proof.
  unfold summary_of.
  destruct (percentile_of_samples x p 99 eq_refl) as [v99 H99].
  destruct (percentile_of_samples x p 90 eq_refl) as [v90 H90].
  destruct (percentile_of_samples x p 50 eq_refl) as [v50 H50].
  destruct (percentile_of_samples y s 99 eq_refl) as [w99 G99].
  destruct (percentile_of_samples y s 90 eq_refl) as [w90 G90].
  destruct (percentile_of_samples y s 50 eq_refl) as [w50 G50].
  rewrite H99, H90, H50, G99, G90, G50. cbn [Py.and_then].
  eexists _, _, _, _, _, _, _, _. reflexivity.
Qed.

Lemma summary_of_no_shadow_samples (x : Q) (p : list Q) :
  summary_of (x :: p) []
  = match Numpy.percentile_of_empty with
    | Numpy.EmptyIsNaN => summary_of (x :: p) []
    | Numpy.EmptyRaises => Py.Raise Py.IndexError
    end.
Proof.
  destruct Numpy.percentile_of_empty eqn:E; [reflexivity|].
  unfold summary_of.
  destruct (percentile_of_samples x p 99 eq_refl) as [v99 H99].
  destruct (percentile_of_samples x p 90 eq_refl) as [v90 H90].
  destruct (percentile_of_samples x p 50 eq_refl) as [v50 H50].
  rewrite H99, H90, H50. cbn [Py.and_then].
  rewrite (percentile_of_no_samples 99 eq_refl), E. reflexivity.
Qed.

Lemma summary_of_raises (p s : list Q) (e : Py.exn) :
  summary_of p s = Py.Raise e ->
  e = Py.IndexError
  /\ Numpy.percentile_of_empty = Numpy.EmptyRaises
  /\ (p = [] \/ s = []).
Proof.
  intros H. destruct p as [|x p].
  - pose proof (summary_of_no_primary_samples s) as Hp.
    destruct Numpy.percentile_of_empty.
    + destruct Hp as (s99 & s90 & s50 & savg & Hp). congruence.
    + rewrite Hp in H. inversion H. repeat split. left. reflexivity.
  - destruct s as [|y s].
    + rewrite summary_of_no_shadow_samples in H.
      destruct Numpy.percentile_of_empty eqn:E.
      * exfalso. revert H. unfold summary_of.
        destruct (percentile_of_samples x p 99 eq_refl) as [v99 H99].
        destruct (percentile_of_samples x p 90 eq_refl) as [v90 H90].
        destruct (percentile_of_samples x p 50 eq_refl) as [v50 H50].
        rewrite H99, H90, H50. cbn [Py.and_then].
        rewrite !percentile_of_no_samples by reflexivity. rewrite E.
        cbn [Py.and_then]. discriminate.
      * inversion H. repeat split. right. reflexivity.
    + destruct (summary_of_samples x y p s)
        as (v99 & v90 & v50 & vavg & w99 & w90 & w50 & wavg & Hok).
      congruence.
Qed.

(** X7: The only exception [__str__] can raise is [IndexError], and it raises it
    exactly when the NumPy release raises on an empty sample and one side
    has no latency above zero. *)
Theorem performance_summary_failures
        (cs : list ResponseComparison) (us : list RequestResponsePair) :
  (forall e, fst (__str__ (__init__ cs us)) = Py.Raise e -> e = Py.IndexError)
  /\ (fst (__str__ (__init__ cs us)) = Py.Raise Py.IndexError
      <-> Numpy.percentile_of_empty = Numpy.EmptyRaises
          /\ (primary_samples cs = [] \/ shadow_samples cs = [])).
Proof.
  rewrite (performance_str_from_inputs (__init__ cs us) cs
             (performance_settled_init cs us) eq_refl).
  split.
  - intros e He. apply (summary_of_raises _ _ _ He).
  - split.
    + intros He. destruct (summary_of_raises _ _ _ He) as (_ & Hr & Hempty).
      split; assumption.
    + intros [Hr [Hp|Hs]].
      * rewrite Hp. pose proof (summary_of_no_primary_samples (shadow_samples cs)) as H.
        rewrite Hr in H. exact H.
      * rewrite Hs. destruct (primary_samples cs) as [|x p].
        -- pose proof (summary_of_no_primary_samples []) as H.
           rewrite Hr in H. exact H.
        -- rewrite summary_of_no_shadow_samples, Hr. reflexivity.
Qed.

(** X8: When each side has at least one latency above zero, [__str__] returns a
    summary whose eight fields are all formatted numbers, on any NumPy
    release, and [export] returns too. *)
Theorem performance_summary_with_samples
        (cs : list ResponseComparison) (us : list RequestResponsePair)
        (out : Builtins.IO) :
  (exists resp, In resp cs /\ (0 < latency (primary_response resp))%Q) ->
  (exists resp, In resp cs /\ (0 < latency (shadow_response resp))%Q) ->
  (exists v99 v90 v50 vavg w99 w90 w50 wavg : Q,
      fst (__str__ (__init__ cs us))
      = Py.Ok (summary (Builtins.format_1f v99) (Builtins.format_1f v90)
                       (Builtins.format_1f v50) (Builtins.format_1f vavg)
                       (Builtins.format_1f w99) (Builtins.format_1f w90)
                       (Builtins.format_1f w50) (Builtins.format_1f wavg)))
  /\ fst (export (__init__ cs us, out)) = Py.Ok tt.
Proof.
  intros (rp & Hinp & Hposp) (rs & Hins & Hposs).
  assert (Hp : In (latency (primary_response rp)) (primary_samples cs)).
  { apply filter_In. split; [|apply positive_iff; exact Hposp].
    apply (in_map (fun resp => latency (primary_response resp))). exact Hinp. }
  assert (Hs : In (latency (shadow_response rs)) (shadow_samples cs)).
  { apply filter_In. split; [|apply positive_iff; exact Hposs].
    apply (in_map (fun resp => latency (shadow_response resp))). exact Hins. }
  rewrite (performance_str_from_inputs (__init__ cs us) cs
             (performance_settled_init cs us) eq_refl).
  rewrite (performance_export_result _ out (performance_settled_init cs us)).
  cbn [__init__ _response_comparisons].
  destruct (primary_samples cs) as [|x p]; [destruct Hp|].
  destruct (shadow_samples cs) as [|y s]; [destruct Hs|].
  destruct (summary_of_samples x y p s)
    as (v99 & v90 & v50 & vavg & w99 & w90 & w50 & wavg & Hok).
  rewrite Hok. split; [|reflexivity].
  exists v99, v90, v50, vavg, w99, w90, w50, wavg. reflexivity.
Qed.

End PerformanceExtras.

Section PerformanceSinkAndSamples.
Import Data PerformanceReport.
Context {RequestResponsePair : Type}.
Context {fmt : Builtins.Format} {release : Numpy.Release}.

Local Abbreviation report := (PerformanceReport.t RequestResponsePair).

Local Abbreviation primary_samples cs :=
  (filter positive (map (fun resp => latency (primary_response resp)) cs)).
Local Abbreviation shadow_samples cs :=
  (filter positive (map (fun resp => latency (shadow_response resp)) cs)).

Local Abbreviation latency_dump text cs :=
  ([text; Py.nl; ("All Primary Cluster Latencies: " ++ Py.nl)%string]
   ++ map (fun lat => (Builtins.repr_number lat ++ " ")%string) (primary_samples cs)
   ++ [Py.nl; ("All Shadow Cluster Latencies: " ++ Py.nl)%string]
   ++ map (fun lat => (Builtins.repr_number lat ++ " ")%string) (shadow_samples cs)
   ++ [Py.nl])%list.

Local Abbreviation dumped cs :=
  (fun c : Driver.call =>
     match c with
     | Driver.CallExport =>
         match summary_of (primary_samples cs) (shadow_samples cs) with
         | Py.Ok text => latency_dump text cs
         | Py.Raise _ => []
         end
     | _ => []
     end).

Lemma performance_step_sink (st : report * Builtins.IO) (c : Driver.call)
      (cs : list ResponseComparison) :
  Driver.performance_settled (fst st) ->
  _response_comparisons (fst st) = cs ->
  snd (Driver.performance_step st c) = (snd st ++ dumped cs c)%list.
Proof.
  intros Hs Hcs. destruct st as [self out]. cbn [fst snd] in *.
  destruct c; unfold Driver.performance_step; cbn [fst snd].
  - rewrite app_nil_r. reflexivity.
  - rewrite app_nil_r. reflexivity.
  - rewrite (performance_export_result self out Hs). rewrite Hcs.
    destruct (summary_of (primary_samples cs) (shadow_samples cs)); cbn [fst snd].
    + reflexivity.
    + rewrite app_nil_r. reflexivity.
Qed.

Lemma performance_run_sink (cs : list ResponseComparison) (calls : list Driver.call) :
  forall st : report * Builtins.IO,
    Driver.performance_settled (fst st) ->
    _response_comparisons (fst st) = cs ->
    snd (Driver.performance_run calls st) = (snd st ++ flat_map (dumped cs) calls)%list.
Proof.
  induction calls as [|c calls IH]; intros st Hs Hcs.
  - simpl. rewrite app_nil_r. reflexivity.
  - unfold Driver.performance_run. simpl.
    destruct (performance_step_invariant st c Hs) as (Hs' & Hcs' & _).
    unfold Driver.performance_run in IH.
    rewrite (IH _ Hs'); [|congruence].
    rewrite (performance_step_sink st c cs Hs Hcs).
    rewrite <- app_assoc. reflexivity.
Qed.

(** X9: Through any sequence of calls the sink only grows: [compute] and
    [__str__] write nothing, an [export] whose summary raises writes nothing,
    and every other [export] appends the same strings after what is already
    there. *)
Theorem performance_sink_after_calls
        (cs : list ResponseComparison) (us : list RequestResponsePair)
        (calls : list Driver.call) (out0 : Builtins.IO) :
  snd (Driver.performance_run calls (__init__ cs us, out0))
  = (out0
     ++ flat_map (fun c : Driver.call =>
                    match c with
                    | Driver.CallExport =>
                        match fst (__str__ (__init__ cs us)) with
                        | Py.Ok text => latency_dump text cs
                        | Py.Raise _ => []
                        end
                    | _ => []
                    end) calls)%list.
Proof.
  rewrite (performance_str_from_inputs (__init__ cs us) cs
             (performance_settled_init cs us) eq_refl).
  apply (performance_run_sink cs calls (__init__ cs us, out0)).
  - apply performance_settled_init.
  - reflexivity.
Qed.

(** X10: Reordering the comparisons reorders the latency samples of each side and
    nothing else: on each side the samples collected from the reordered
    sequence are the original samples in another order. *)
Theorem latency_samples_ignore_order
        (cs cs' : list ResponseComparison) (us : list RequestResponsePair) :
  Permutation cs cs' ->
  exists p p' s s' : list Q,
    _primary_latencies (snd (compute (__init__ cs us))) = Some p
    /\ _primary_latencies (snd (compute (__init__ cs' us))) = Some p'
    /\ _shadow_latencies (snd (compute (__init__ cs us))) = Some s
    /\ _shadow_latencies (snd (compute (__init__ cs' us))) = Some s'
    /\ Permutation p p' /\ Permutation s s'.
Proof.
  intros Hperm.
  assert (Hp : Permutation (primary_samples cs) (primary_samples cs')).
  { apply filter_permutation, Permutation_map. exact Hperm. }
  assert (Hs : Permutation (shadow_samples cs) (shadow_samples cs')).
  { apply filter_permutation, Permutation_map. exact Hperm. }
  rewrite !performance_compute_result.
  cbn [snd __init__ _response_comparisons _primary_latencies _shadow_latencies].
  eexists _, _, _, _. repeat (split; [reflexivity|]).
  split; [exact Hp | exact Hs].
Qed.

(** X11: The samples of a sequence made of two parts are the samples of the first
    part followed by the samples of the second, on each side; no side has
    more samples than there are comparisons. *)
Theorem latency_samples_concatenate
        (cs1 cs2 : list ResponseComparison) (us : list RequestResponsePair) :
  _primary_latencies (snd (compute (__init__ (cs1 ++ cs2) us)))
  = Some (primary_samples cs1 ++ primary_samples cs2)%list
  /\ _shadow_latencies (snd (compute (__init__ (cs1 ++ cs2) us)))
     = Some (shadow_samples cs1 ++ shadow_samples cs2)%list
  /\ List.length (primary_samples (cs1 ++ cs2)) <= List.length (cs1 ++ cs2)
  /\ List.length (shadow_samples (cs1 ++ cs2)) <= List.length (cs1 ++ cs2).
Proof.
  rewrite performance_compute_result.
  cbn [snd __init__ _response_comparisons _primary_latencies _shadow_latencies].
  rewrite !map_app, !filter_app.
  split; [reflexivity|]. split; [reflexivity|].
  split.
  - rewrite <- filter_app, <- map_app.
    eapply Nat.le_trans; [apply filter_length_le|]. rewrite length_map. apply Nat.le_refl.
  - rewrite <- filter_app, <- map_app.
    eapply Nat.le_trans; [apply filter_length_le|]. rewrite length_map. apply Nat.le_refl.
Qed.

End PerformanceSinkAndSamples.

(** ** Both reports: the state after a call *)

Section StateAfterCalls.
Import Data.
Context {RequestResponsePair : Type}.
Context {enc : Json.Encoder} {fmt : Builtins.Format} {differ : Difflib.Differ}
        {release : Numpy.Release}.

Lemma correctness_step_state
      (st : BasicCorrectnessReport.t RequestResponsePair * Builtins.IO) (c : Driver.call) :
  Driver.correctness_settled (fst st) ->
  fst (Driver.correctness_step st c) = snd (BasicCorrectnessReport.compute (fst st)).
Proof.
  intros Hs. destruct st as [self out]. cbn [fst] in *.
  destruct c; unfold Driver.correctness_step; cbn [fst snd].
  - reflexivity.
  - rewrite (str_result self Hs). reflexivity.
  - rewrite (export_result self out Hs). reflexivity.
Qed.

Lemma performance_step_state
      (st : PerformanceReport.t RequestResponsePair * Builtins.IO) (c : Driver.call) :
  Driver.performance_settled (fst st) ->
  fst (Driver.performance_step st c) = snd (PerformanceReport.compute (fst st)).
Proof.
  intros Hs. destruct st as [self out]. cbn [fst] in *.
  destruct c; unfold Driver.performance_step; cbn [fst snd].
  - reflexivity.
  - rewrite (performance_str_result self Hs). reflexivity.
  - rewrite (performance_export_result self out Hs).
    destruct (PerformanceReport.summary_of _ _); reflexivity.
Qed.

(** X13: After at least one call, whichever it was and whether or not it raised,
    a report is in the state a single [compute] on the fresh report leaves:
    [_computed] is set and the cached attributes are assigned.  An exception
    in [__str__] or [export] does not undo the computation. *)
Theorem report_state_after_any_call
        (cs : list ResponseComparison) (us : list RequestResponsePair)
        (calls : list Driver.call) (c : Driver.call) (out0 : Builtins.IO) :
  (fst (Driver.correctness_run (calls ++ [c]) (BasicCorrectnessReport.__init__ cs us, out0))
   = snd (BasicCorrectnessReport.compute (BasicCorrectnessReport.__init__ cs us))
   /\ BasicCorrectnessReport._computed
        (fst (Driver.correctness_run (calls ++ [c])
                (BasicCorrectnessReport.__init__ cs us, out0))) = true)
  /\ (fst (Driver.performance_run (calls ++ [c]) (PerformanceReport.__init__ cs us, out0))
      = snd (PerformanceReport.compute (PerformanceReport.__init__ cs us))
      /\ PerformanceReport._computed
           (fst (Driver.performance_run (calls ++ [c])
                   (PerformanceReport.__init__ cs us, out0))) = true
      /\ PerformanceReport._primary_latencies
           (fst (Driver.performance_run (calls ++ [c])
                   (PerformanceReport.__init__ cs us, out0))) <> None
      /\ PerformanceReport._shadow_latencies
           (fst (Driver.performance_run (calls ++ [c])
                   (PerformanceReport.__init__ cs us, out0))) <> None).
Proof.
  split.
  - unfold Driver.correctness_run. rewrite fold_left_app. cbn [fold_left].
    destruct (correctness_run_invariant calls
                (BasicCorrectnessReport.__init__ cs us, out0) (settled_init cs us))
      as (Hs & Hcs & Hus).
    unfold Driver.correctness_run in Hs, Hcs, Hus.
    rewrite (correctness_step_state _ c Hs).
    rewrite (correctness_compute_from_inputs _ cs us Hcs Hus).
    split; [reflexivity|]. rewrite compute_result. reflexivity.
  - unfold Driver.performance_run. rewrite fold_left_app. cbn [fold_left].
    destruct (performance_run_invariant calls
                (PerformanceReport.__init__ cs us, out0) (performance_settled_init cs us))
      as (Hs & Hcs & Hus).
    unfold Driver.performance_run in Hs, Hcs, Hus.
    rewrite (performance_step_state _ c Hs).
    rewrite (performance_compute_from_inputs _ cs us Hcs Hus).
    split; [reflexivity|]. rewrite performance_compute_result.
    split; [reflexivity|]. split; discriminate.
Qed.

End StateAfterCalls.

(** ** DataLoader *)

Section DataLoaderFacts.
Import DataLoader.
Context {collaborators : Collaborators}.

Local Abbreviation found format :=
  (Debug ("Log file loader found for filetype " ++ str_format format ++ ".")).
Local Abbreviation instantiated files :=
  (Debug ("Log file loaders instantiated for files " ++ str_files files ++ ".")).
Local Abbreviation loaded := (Debug "Shadow and primary log files loaded.").

(** Every way the constructor can end, with the events it has logged by
    then. *)
Lemma init_outcomes (files : list Path) (value : string) (trace : list event) :
  (format_of_value value = None
   /\ __init__ files value trace = (inl (UnknownLogFileFormatException value), trace))
  \/ exists format,
      format_of_value value = Some format
      /\ ((exists failure,
              getLogFileLoader format = inl failure
              /\ __init__ files value trace = (inl (Propagated failure), trace))
          \/ exists loader_class,
              getLogFileLoader format = inr loader_class
              /\ ((IsCorrelatedFormat format = None
                   /\ __init__ files value trace
                      = (inl (KeyError format), (trace ++ [found format])%list))
                  \/ exists correlated,
                      IsCorrelatedFormat format = Some correlated
                      /\ ((exists failure,
                              instantiate loader_class files = inl failure
                              /\ __init__ files value trace
                                 = (inl (Propagated failure),
                                    (trace ++ [found format;
                                               Instantiate loader_class files])%list))
                          \/ exists loader,
                              instantiate loader_class files = inr loader
                              /\ ((exists failure,
                                      load loader = inl failure
                                      /\ __init__ files value trace
                                         = (inl (Propagated failure),
                                            (trace ++ [found format;
                                                       Instantiate loader_class files;
                                                       instantiated files;
                                                       Load loader])%list))
                                  \/ exists streams,
                                      load loader = inr streams
                                      /\ __init__ files value trace
                                         = (inr {| log_file_format := format;
                                                   log_file_loader := loader_class;
                                                   _is_correlated := correlated;
                                                   log_loader := loader;
                                                   _primary_log_data := fst streams;
                                                   _shadow_log_data := snd streams |},
                                            (trace ++ [found format;
                                                       Instantiate loader_class files;
                                                       instantiated files;
                                                       Load loader;
                                                       loaded])%list))))).
Proof.
  unfold __init__.
  destruct (format_of_value value) as [format|]; [right | left; split; reflexivity].
  exists format. split; [reflexivity|].
  destruct (getLogFileLoader format) as [failure|loader_class] eqn:Hc.
  { left. exists failure. split; reflexivity. }
  right. exists loader_class. split; [reflexivity|].
  cbv beta iota delta [bind call ret emit raise].
  destruct (IsCorrelatedFormat format) as [correlated|] eqn:Hb.
  2:{ left. split; reflexivity. }
  right. exists correlated. split; [reflexivity|].
  cbv beta iota.
  destruct (instantiate loader_class files) as [failure|loader] eqn:Hl.
  { left. exists failure. split; [reflexivity|].
    rewrite <- app_assoc. reflexivity. }
  right. exists loader. split; [reflexivity|].
  cbv beta iota.
  destruct (load loader) as [failure|streams] eqn:Hs.
  { left. exists failure. split; [reflexivity|].
    rewrite <- !app_assoc. reflexivity. }
  right. exists streams. split; [reflexivity|].
  rewrite <- !app_assoc. reflexivity.
Qed.

(** X14: A format string that is not a member of the enum is rejected with
    [UnknownLogFileFormatException] carrying that string (the [ValueError]
    does not reach the caller), before anything is logged, instantiated or
    loaded.  Only that [ValueError] is converted: for a known format every
    exception that leaves the constructor is the [KeyError] of a format
    missing from [IsCorrelatedFormat], or the exception a collaborator
    raised ([getLogFileLoader], the loader class or [load]), passed on as it
    is. *)
Theorem unknown_format_is_rejected
        (files : list Path) (value : string) (trace : list event) :
  (format_of_value value = None ->
   __init__ files value trace = (inl (UnknownLogFileFormatException value), trace))
  /\ (forall format e,
         format_of_value value = Some format ->
         fst (__init__ files value trace) = inl e ->
         (e = KeyError format /\ IsCorrelatedFormat format = None)
         \/ exists failure,
             e = Propagated failure
             /\ (getLogFileLoader format = inl failure
                 \/ exists loader_class,
                     getLogFileLoader format = inr loader_class
                     /\ (instantiate loader_class files = inl failure
                         \/ exists loader,
                             instantiate loader_class files = inr loader
                             /\ load loader = inl failure))).
Proof.
  split.
  - intros Hnone. unfold __init__. rewrite Hnone. reflexivity.
  - intros format e Hformat H.
    destruct (init_outcomes files value trace)
      as [[Hnone Hr] | (f & Hf & [ (err & Hc & Hr)
                                 | (c & Hc & [ [Hb Hr]
                                             | (b & _ & [ (err & Hl & Hr)
                                                        | (l & Hl & [ (err & Hs & Hr)
                                                                    | (st & _ & Hr)])])])])];
      try congruence;
      assert (f = format) by congruence; subst f;
      rewrite Hr in H; cbn [fst] in H; inversion H; subst e.
    + right. exists err. split; [reflexivity|]. left. exact Hc.
    + left. split; [reflexivity | exact Hb].
    + right. exists err. split; [reflexivity|]. right. exists c. split; [exact Hc|].
      left. exact Hl.
    + right. exists err. split; [reflexivity|]. right. exists c. split; [exact Hc|].
      right. exists l. split; [exact Hl | exact Hs].
Qed.

(** X15: A loader is instantiated, and asked to load, only once the format is
    known, has a loader class and has an entry in [IsCorrelatedFormat]: a
    failure at any of these steps leaves the log files untouched. *)
Theorem files_are_touched_last
        (files : list Path) (value : string) (e : event) :
  In e (snd (__init__ files value [])) ->
  (forall message, e <> Debug message) ->
  exists format loader_class correlated,
    format_of_value value = Some format
    /\ getLogFileLoader format = inr loader_class
    /\ IsCorrelatedFormat format = Some correlated
    /\ (e = Instantiate loader_class files
        \/ exists loader,
            instantiate loader_class files = inr loader /\ e = Load loader).
Proof.
  intros Hin Hnot.
  assert (Hd : forall m rest, In e (Debug m :: rest) -> In e rest).
  { intros m rest [H|H]; [exfalso; apply (Hnot m); symmetry; exact H | exact H]. }
  destruct (init_outcomes files value [])
    as [[Hnone Hr] | (f & Hf & [ (err & _ & Hr)
                               | (c & Hc & [ [_ Hr]
                                           | (b & Hb & [ (err & _ & Hr)
                                                       | (l & Hl & [ (err & _ & Hr)
                                                                   | (st & _ & Hr)])])])])];
    rewrite Hr in Hin; cbn [snd app] in Hin.
  - destruct Hin.
  - destruct Hin.
  - apply Hd in Hin. destruct Hin.
  - apply Hd in Hin. destruct Hin as [H|[]].
    exists f, c, b. repeat split; try assumption. left. symmetry. exact H.
  - apply Hd in Hin. exists f, c, b. repeat split; try assumption.
    destruct Hin as [H|Hin]; [left; symmetry; exact H|].
    apply Hd in Hin. destruct Hin as [H|[]].
    right. exists l. split; [assumption | symmetry; exact H].
  - apply Hd in Hin. exists f, c, b. repeat split; try assumption.
    destruct Hin as [H|Hin]; [left; symmetry; exact H|].
    apply Hd in Hin. destruct Hin as [H|Hin].
    + right. exists l. split; [assumption | symmetry; exact H].
    + apply Hd in Hin. destruct Hin.
Qed.

(** X16: When the constructor returns, the three properties give back what was
    found on the way: [primary_data_stream] and [shadow_data_stream] are the
    pair the loader returned, in that order, [is_correlated] is the entry of
    the format in [IsCorrelatedFormat], and the constructor has logged three
    debug messages around one instantiation and one load. *)
Theorem loader_properties_return_what_was_loaded
        (files : list Path) (value : string) (trace : list event) (self : t) :
  fst (__init__ files value trace) = inr self ->
  format_of_value value = Some (log_file_format self)
  /\ getLogFileLoader (log_file_format self) = inr (log_file_loader self)
  /\ IsCorrelatedFormat (log_file_format self) = Some (is_correlated self)
  /\ instantiate (log_file_loader self) files = inr (log_loader self)
  /\ load (log_loader self) = inr (primary_data_stream self, shadow_data_stream self)
  /\ snd (__init__ files value trace)
     = (trace ++ [found (log_file_format self);
                  Instantiate (log_file_loader self) files;
                  instantiated files;
                  Load (log_loader self);
                  loaded])%list.
Proof.
  intros H.
  destruct (init_outcomes files value trace)
    as [[Hnone Hr] | (f & Hf & [ (err & _ & Hr)
                               | (c & Hc & [ [_ Hr]
                                           | (b & Hb & [ (err & _ & Hr)
                                                       | (l & Hl & [ (err & _ & Hr)
                                                                   | (st & Hst & Hr)])])])])];
    rewrite Hr in H; cbn [fst] in H; try discriminate H.
  inversion H; subst self. rewrite Hr.
  cbn [snd log_file_format log_file_loader log_loader is_correlated _is_correlated
       primary_data_stream shadow_data_stream _primary_log_data _shadow_log_data].
  repeat split; try assumption.
  rewrite Hst. destruct st; reflexivity.
Qed.

End DataLoaderFacts.

(** ** PerformanceReport: percentiles and the order of the samples *)

Section PercentileOrder.
Import Data PerformanceReport.
Context {RequestResponsePair : Type}.
Context {release : Numpy.Release}.

Lemma Qle_bool_false_lt (x y : Q) : Qle_bool x y = false -> (y < x)%Q.
Proof.
  intros H. apply Qnot_le_lt. intros Hle. apply Qle_bool_iff in Hle. congruence.
Qed.

Lemma Qle_bool_compat (x x' y y' : Q) :
  (x == x')%Q -> (y == y')%Q -> Qle_bool x y = Qle_bool x' y'.
Proof.
  intros Hx Hy.
  destruct (Qle_bool x y) eqn:H1, (Qle_bool x' y') eqn:H2; try reflexivity.
  - apply Qle_bool_iff in H1. apply Qle_bool_false_lt in H2. lra.
  - apply Qle_bool_iff in H2. apply Qle_bool_false_lt in H1. lra.
Qed.

Lemma pointwise_refl (l : list Q) : Forall2 Qeq l l.
Proof. induction l; constructor; [reflexivity | assumption]. Qed.

Lemma pointwise_trans (l1 l2 l3 : list Q) :
  Forall2 Qeq l1 l2 -> Forall2 Qeq l2 l3 -> Forall2 Qeq l1 l3.
Proof.
  intros H12. revert l3. induction H12 as [|x y l1 l2 Hxy H12 IH]; intros l3 H23.
  - inversion H23. constructor.
  - inversion H23; subst. constructor; [|apply IH; assumption].
    etransitivity; eassumption.
Qed.

Lemma pointwise_nth (l l' : list Q) (k : nat) :
  Forall2 Qeq l l' -> (nth k l 0 == nth k l' 0)%Q.
Proof.
  intros H. revert k. induction H as [|x y l l' Hxy H IH]; intros k.
  - destruct k; reflexivity.
  - destruct k; simpl; [exact Hxy | apply IH].
Qed.

Lemma insert_sample_pointwise (x x' : Q) (l l' : list Q) :
  (x == x')%Q -> Forall2 Qeq l l' ->
  Forall2 Qeq (Numpy.insert_sample x l) (Numpy.insert_sample x' l').
Proof.
  intros Hx H. induction H as [|y y' l l' Hy H IH]; simpl.
  - repeat constructor. exact Hx.
  - rewrite (Qle_bool_compat x x' y y' Hx Hy).
    destruct (Qle_bool x' y'); repeat (constructor; try assumption).
Qed.

(** Two samples go into a sorted list in either order, up to which of two
    equal numbers comes first. *)
Lemma insert_sample_comm (x y : Q) (l : list Q) :
  Forall2 Qeq (Numpy.insert_sample x (Numpy.insert_sample y l))
              (Numpy.insert_sample y (Numpy.insert_sample x l)).
Proof.
  induction l as [|c l IH].
  - simpl.
    destruct (Qle_bool x y) eqn:Hxy, (Qle_bool y x) eqn:Hyx;
      try apply Qle_bool_iff in Hxy; try apply Qle_bool_iff in Hyx;
      try apply Qle_bool_false_lt in Hxy; try apply Qle_bool_false_lt in Hyx;
      try (exfalso; lra);
      repeat (apply Forall2_cons; [lra|]); constructor.
  - simpl.
    destruct (Qle_bool y c) eqn:Hyc, (Qle_bool x c) eqn:Hxc; simpl;
      rewrite ?Hyc, ?Hxc;
      destruct (Qle_bool x y) eqn:Hxy, (Qle_bool y x) eqn:Hyx; simpl;
      rewrite ?Hyc, ?Hxc;
      try apply Qle_bool_iff in Hxy; try apply Qle_bool_iff in Hyx;
      try apply Qle_bool_iff in Hyc; try apply Qle_bool_iff in Hxc;
      try apply Qle_bool_false_lt in Hxy; try apply Qle_bool_false_lt in Hyx;
      try apply Qle_bool_false_lt in Hyc; try apply Qle_bool_false_lt in Hxc;
      try (exfalso; lra);
      repeat (apply Forall2_cons; [lra|]);
      first [exact IH | apply pointwise_refl].
Qed.

Lemma sort_pointwise (l l' : list Q) :
  Permutation l l' -> Forall2 Qeq (Numpy.sort l) (Numpy.sort l').
Proof.
  intros H. induction H as [|x l l' H IH|x y l|l1 l2 l3 H12 IH12 H23 IH23]; simpl.
  - constructor.
  - apply insert_sample_pointwise; [reflexivity | exact IH].
  - apply insert_sample_comm.
  - apply pointwise_trans with (Numpy.sort l2); assumption.
Qed.

Local Abbreviation same_outcome r r' :=
  (match r, r' with
   | Py.Ok (Numpy.Finite a), Py.Ok (Numpy.Finite b) => (a == b)%Q
   | Py.Ok Numpy.NaN, Py.Ok Numpy.NaN => True
   | Py.Raise e, Py.Raise e' => e = e'
   | _, _ => False
   end).

Lemma percentile_permutation (a b : list Q) (q : Q) :
  Permutation a b -> same_outcome (Numpy.percentile a q) (Numpy.percentile b q).
Proof.
  intros H. pose proof (Permutation_length H) as Hlen.
  pose proof (sort_pointwise a b H) as Hsort.
  unfold Numpy.percentile.
  destruct (negb (Qle_bool 0 q && Qle_bool q 100)); [reflexivity|].
  destruct a as [|x a], b as [|y b]; try discriminate Hlen.
  - destruct Numpy.percentile_of_empty; reflexivity.
  - cbv zeta. rewrite <- Hlen. unfold Numpy.lerp.
    rewrite (pointwise_nth _ _ (Z.to_nat
               (Qfloor (inject_Z (Z.of_nat (List.length (x :: a) - 1)) * (q / 100))))
               Hsort).
    rewrite (pointwise_nth _ _ (Nat.min
               (S (Z.to_nat
                     (Qfloor (inject_Z (Z.of_nat (List.length (x :: a) - 1)) * (q / 100)))))
               (List.length (x :: a) - 1)) Hsort).
    reflexivity.
Qed.

(** X12: Reordering the comparisons leaves every statistic of the summary the
    same number: for each percentile rank [q], each side's percentile of the
    reordered samples is the percentile of the original ones (or both are
    NaN, or both calls raise the same exception). *)
Theorem summary_statistics_ignore_order
        (cs cs' : list ResponseComparison) (us : list RequestResponsePair) (q : Q) :
  Permutation cs cs' ->
  exists p p' s s' : list Q,
    _primary_latencies (snd (compute (__init__ cs us))) = Some p
    /\ _primary_latencies (snd (compute (__init__ cs' us))) = Some p'
    /\ _shadow_latencies (snd (compute (__init__ cs us))) = Some s
    /\ _shadow_latencies (snd (compute (__init__ cs' us))) = Some s'
    /\ same_outcome (Numpy.percentile p q) (Numpy.percentile p' q)
    /\ same_outcome (Numpy.percentile s q) (Numpy.percentile s' q).
Proof.
  intros Hperm.
  rewrite !performance_compute_result.
  cbn [snd __init__ _response_comparisons _primary_latencies _shadow_latencies].
  eexists _, _, _, _. repeat (split; [reflexivity|]).
  split; apply percentile_permutation; apply filter_permutation, Permutation_map;
    exact Hperm.
Qed.

End PercentileOrder.

(** ** These theorems at sample inputs *)

Section MoreWitnesses.
Import Data.

#[local] Existing Instance Sample.encoder.
#[local] Existing Instance Sample.format.
#[local] Existing Instance Sample.differ.
#[local] Existing Instance Sample.current.
#[local] Existing Instance SampleLoader.collaborators.

Lemma match_rate_extremes_witness :
  BasicCorrectnessReport._response_comparisons
    (BasicCorrectnessReport.__init__ (RequestResponsePair := unit)
       [Sample.identical_comparison; Sample.identical_comparison] []) <> []
  /\ exists pm : Q,
      BasicCorrectnessReport._percent_matching
        (snd (BasicCorrectnessReport.compute
                (BasicCorrectnessReport.__init__ (RequestResponsePair := unit)
                   [Sample.identical_comparison; Sample.identical_comparison] [])))
      = Some pm
      /\ (pm == 1)%Q.
Proof.
  split; [discriminate|].
  destruct (match_rate_extremes
              (BasicCorrectnessReport.__init__ (RequestResponsePair := unit)
                 [Sample.identical_comparison; Sample.identical_comparison] []))
    as (pm & psm & Hpm & _ & Hone & _).
  - discriminate.
  - exists pm. split; [exact Hpm|]. apply Hone.
    intros comp [<-|[<-|[]]]; reflexivity.
Defined.

Lemma summary_ignores_order_witness :
  Permutation [Sample.truncated_comparison; Sample.identical_comparison]
              [Sample.identical_comparison; Sample.truncated_comparison]
  /\ List.length [tt] = List.length [tt]
  /\ fst (BasicCorrectnessReport.__str__
            (BasicCorrectnessReport.__init__
               [Sample.truncated_comparison; Sample.identical_comparison] [tt]))
     = fst (BasicCorrectnessReport.__str__
              (BasicCorrectnessReport.__init__
                 [Sample.identical_comparison; Sample.truncated_comparison] [tt])).
Proof.
  split; [apply perm_swap|]. split; [reflexivity|].
  apply (summary_ignores_order
           [Sample.truncated_comparison; Sample.identical_comparison]
           [Sample.identical_comparison; Sample.truncated_comparison] [tt] [tt]).
  - apply perm_swap.
  - reflexivity.
Defined.

Lemma raw_body_line_is_short_witness :
  BasicCorrectnessReport.unstructured Sample.truncated_comparison = true
  /\ exists p1 p2 p3 s1 s2 s3 : string,
      BasicCorrectnessReport.primary_response_lines Sample.truncated_comparison
      = [p1; p2; p3]
      /\ BasicCorrectnessReport.shadow_response_lines Sample.truncated_comparison
         = [s1; s2; s3]
      /\ String.length p3 <= 104
      /\ String.length s3 <= 104.
Proof.
  split; [reflexivity|].
  apply (raw_body_line_is_short Sample.truncated_comparison). reflexivity.
Defined.

Lemma performance_summary_with_samples_witness :
  (exists resp, In resp Sample.percentile_comparisons
                /\ (0 < latency (primary_response resp))%Q)
  /\ (exists resp, In resp Sample.percentile_comparisons
                   /\ (0 < latency (shadow_response resp))%Q)
  /\ fst (PerformanceReport.export
            (PerformanceReport.__init__ Sample.percentile_comparisons (@nil unit), []))
     = Py.Ok tt.
Proof.
  assert (Hp : exists resp, In resp Sample.percentile_comparisons
                            /\ (0 < latency (primary_response resp))%Q).
  { eexists. split; [left; reflexivity | reflexivity]. }
  assert (Hs : exists resp, In resp Sample.percentile_comparisons
                            /\ (0 < latency (shadow_response resp))%Q).
  { eexists. split; [left; reflexivity | reflexivity]. }
  split; [exact Hp|]. split; [exact Hs|].
  apply (performance_summary_with_samples
           Sample.percentile_comparisons (@nil unit) [] Hp Hs).
Defined.

Lemma latency_samples_ignore_order_witness :
  Permutation Sample.latency_comparisons (rev Sample.latency_comparisons)
  /\ exists p p' : list Q,
      PerformanceReport._primary_latencies
        (snd (PerformanceReport.compute
                (PerformanceReport.__init__ Sample.latency_comparisons (@nil unit))))
      = Some p
      /\ PerformanceReport._primary_latencies
           (snd (PerformanceReport.compute
                   (PerformanceReport.__init__ (rev Sample.latency_comparisons)
                      (@nil unit))))
         = Some p'
      /\ Permutation p p'.
Proof.
  split; [apply Permutation_rev|].
  destruct (latency_samples_ignore_order
              Sample.latency_comparisons (rev Sample.latency_comparisons) (@nil unit)
              (Permutation_rev _))
    as (p & p' & s & s' & Hp & Hp' & _ & _ & Hperm & _).
  exists p, p'. repeat split; assumption.
Defined.

Lemma summary_statistics_ignore_order_witness :
  Permutation Sample.percentile_comparisons (rev Sample.percentile_comparisons)
  /\ exists p p' : list Q,
      PerformanceReport._primary_latencies
        (snd (PerformanceReport.compute
                (PerformanceReport.__init__ Sample.percentile_comparisons (@nil unit))))
      = Some p
      /\ PerformanceReport._primary_latencies
           (snd (PerformanceReport.compute
                   (PerformanceReport.__init__ (rev Sample.percentile_comparisons)
                      (@nil unit))))
         = Some p'
      /\ match Numpy.percentile p 90, Numpy.percentile p' 90 with
         | Py.Ok (Numpy.Finite a), Py.Ok (Numpy.Finite b) => (a == b)%Q
         | Py.Ok Numpy.NaN, Py.Ok Numpy.NaN => True
         | Py.Raise e, Py.Raise e' => e = e'
         | _, _ => False
         end.
Proof.
  split; [apply Permutation_rev|].
  destruct (summary_statistics_ignore_order
              Sample.percentile_comparisons (rev Sample.percentile_comparisons)
              (@nil unit) 90 (Permutation_rev _))
    as (p & p' & s & s' & Hp & Hp' & _ & _ & Hsame & _).
  exists p, p'. repeat split; assumption.
Defined.

Lemma files_are_touched_last_witness :
  In (DataLoader.Load ["primary.log"; "shadow.log"])
     (snd (DataLoader.__init__ ["primary.log"; "shadow.log"] "correlated" []))
  /\ (forall message,
         DataLoader.Load ["primary.log"; "shadow.log"] <> DataLoader.Debug message)
  /\ exists format loader_class correlated,
      DataLoader.format_of_value "correlated" = Some format
      /\ DataLoader.getLogFileLoader format = inr loader_class
      /\ DataLoader.IsCorrelatedFormat format = Some correlated
      /\ (DataLoader.Load ["primary.log"; "shadow.log"]
          = DataLoader.Instantiate loader_class ["primary.log"; "shadow.log"]
          \/ exists loader,
              DataLoader.instantiate loader_class ["primary.log"; "shadow.log"]
              = inr loader
              /\ DataLoader.Load ["primary.log"; "shadow.log"] = DataLoader.Load loader).
Proof.
  assert (Hin : In (DataLoader.Load ["primary.log"; "shadow.log"])
                   (snd (DataLoader.__init__ ["primary.log"; "shadow.log"]
                                             "correlated" []))).
  { simpl. right. right. right. left. reflexivity. }
  assert (Hnot : forall message,
             DataLoader.Load ["primary.log"; "shadow.log"] <> DataLoader.Debug message).
  { intros message. discriminate. }
  split; [exact Hin|]. split; [exact Hnot|].
  apply (@files_are_touched_last SampleLoader.collaborators
           ["primary.log"; "shadow.log"] "correlated" _ Hin Hnot).
Defined.

Lemma loader_properties_return_what_was_loaded_witness :
  exists self : DataLoader.t,
    fst (DataLoader.__init__ ["primary.log"; "shadow.log"] "correlated" []) = inr self
    /\ DataLoader.is_correlated self = true
    /\ DataLoader.load (DataLoader.log_loader self)
       = inr (DataLoader.primary_data_stream self, DataLoader.shadow_data_stream self).
Proof.
  eexists. split; [reflexivity|]. split; [reflexivity|].
  apply (@loader_properties_return_what_was_loaded SampleLoader.collaborators
           ["primary.log"; "shadow.log"] "correlated" [] _ eq_refl).
Defined.

End MoreWitnesses.
